(** * simple-calculator: the expression evaluator, the history store and the
      operator handler of [src/app.js], embedded and verified.

    JavaScript strings are sequences of UTF-16 code units, numbers are IEEE
    binary64 values (the primitive [float] of the kernel), and the value
    returned by [SafeCalculator.evaluate] is either a number or an error
    message (a string), exactly as [@returns {number|string}] says. *)

From Stdlib Require Import Bool NArith ZArith List String Ascii Floats Lia.
Import ListNotations.

(** ** JavaScript strings *)

Module JsString.

(** A string is the list of its UTF-16 code units. *)
Definition jsstring : Type := list N.

(** An ASCII literal of this file as a JavaScript string. *)
Definition str (s : string) : jsstring :=
  map N_of_ascii (list_ascii_of_string s).

(** [a === b] on strings. *)
Fixpoint eqb (a b : jsstring) : bool :=
  match a, b with
  | [], [] => true
  | x :: a', y :: b' => N.eqb x y && eqb a' b'
  | _, _ => false
  end.

(** [s.startsWith(p)] *)
Fixpoint startsWith (p s : jsstring) : bool :=
  match p, s with
  | [], _ => true
  | x :: p', y :: s' => N.eqb x y && startsWith p' s'
  | _ :: _, [] => false
  end.

(** [s] starts with the code unit [c]. *)
Definition startsWithChar (c : N) (s : jsstring) : bool :=
  match s with
  | d :: _ => (c =? d)%N
  | [] => false
  end.

(** [s.includes(c)] for a one-character needle. *)
Definition includes (c : N) (s : jsstring) : bool := existsb (N.eqb c) s.

(** [s.split(c).length] for a one-character separator: one more than the
    number of occurrences. *)
Definition splitLength (c : N) (s : jsstring) : nat :=
  S (List.length (filter (N.eqb c) s)).

(** [s.slice(-1)]: the last code unit as a string, empty on the empty
    string. *)
Fixpoint sliceLast (s : jsstring) : jsstring :=
  match s with
  | [] => []
  | [c] => [c]
  | _ :: t => sliceLast t
  end.

(** [s.slice(0, -1)]: everything but the last code unit. *)
Definition sliceInit (s : jsstring) : jsstring := removelast s.

(** The character classes of the regular expressions of the program.
    [\d] is ASCII only; [\s] is WhiteSpace and LineTerminator of
    ECMAScript, which is also what [trim] strips. *)
Definition isDigit (c : N) : bool := (48 <=? c)%N && (c <=? 57)%N.

Definition isWhiteSpace (c : N) : bool :=
  existsb (N.eqb c)
    [0x09; 0x0A; 0x0B; 0x0C; 0x0D; 0x20; 0xA0; 0x1680; 0x2028; 0x2029;
     0x202F; 0x205F; 0x3000; 0xFEFF]%N
  || ((0x2000 <=? c)%N && (c <=? 0x200A)%N).

(** The longest run of digits at the head of [s], and what follows. *)
Fixpoint spanDigits (s : jsstring) : jsstring * jsstring :=
  match s with
  | c :: t =>
      if isDigit c then let (d, r) := spanDigits t in (c :: d, r) else ([], s)
  | [] => ([], [])
  end.

Fixpoint trimStart (s : jsstring) : jsstring :=
  match s with
  | c :: t => if isWhiteSpace c then trimStart t else s
  | [] => []
  end.

(** [s.trim()] *)
Definition trim (s : jsstring) : jsstring :=
  rev (trimStart (rev (trimStart s))).

(** [s.replace(/\s/g, '')] *)
Definition removeWhiteSpace (s : jsstring) : jsstring :=
  filter (fun c => negb (isWhiteSpace c)) s.

End JsString.
Import JsString.

(** Named code units. *)
Definition ch (a : ascii) : N := N_of_ascii a.

(** ** Numbers and the [Math] functions the program calls *)

Module Math.

(** [Math.PI.toString()] *)
Definition PI_toString : jsstring := str "3.141592653589793".

(** An integer of magnitude below 2^63 as a number (exact below 2^53). *)
Definition ofZ (n : Z) : float :=
  match n with
  | Z0 => PrimFloat.zero
  | Zpos _ => PrimFloat.of_uint63 (Uint63.of_Z n)
  | Zneg p => PrimFloat.opp (PrimFloat.of_uint63 (Uint63.of_Z (Zpos p)))
  end.

(** [Math.round(x)]: NaN, the infinities and integral values are returned
    as they are; otherwise the closest integer, a tie going towards
    +infinity, which is the floor of [x + 1/2] computed exactly; a zero
    result keeps the sign of [x]. *)
Definition round (x : float) : float :=
  match Prim2SF x with
  | S754_finite s m e =>
      if (0 <=? e)%Z then x
      else
        let d := (2 ^ (- e))%Z in
        let sm := if s then Zneg m else Zpos m in
        let n := ((2 * sm + d) / (2 * d))%Z in
        if (n =? 0)%Z
        then (if s then PrimFloat.neg_zero else PrimFloat.zero)
        else ofZ n
  | _ => x
  end.

(** [Math.sqrt(x)]: the IEEE 754 square root. *)
Definition sqrt (x : float) : float := PrimFloat.sqrt x.

End Math.

(** What [evaluate], [sqrt], [power] and [percentage] return: a number or a
    string. Every string they return is an error message. *)
Inductive JsResult : Type :=
| Number (value : float)
| Message (text : jsstring).

(** The error messages of [src/app.js], with the line that returns them. *)
Definition errEmptyExpression : jsstring := str "Error: Empty expression".              (* l.15 *)
Definition errTooManyPowerOps : jsstring := str "Error: Too many power operations".    (* l.38 *)
Definition errInvalidCharacters : jsstring := str "Error: Invalid characters".         (* l.48 *)
Definition errInvalidPowerExpression : jsstring := str "Error: Invalid power expression". (* l.51 *)
Definition errUnmatchedParens : jsstring := str "Error: Unmatched parentheses".        (* l.59, l.61 *)
Definition errDivisionByZero : jsstring := str "Error: Division by zero".              (* l.65 *)
Definition errInvalidResult : jsstring := str "Error: Invalid result".                 (* l.75 *)
Definition errInvalidExpression : jsstring := str "Error: Invalid expression".         (* l.81 *)
Definition errNegativeSqrt : jsstring := str "Error: Negative square root".            (* l.91 *)
Definition errInvalidPower : jsstring := str "Error: Invalid power".                   (* l.103 *)
Definition errInvalidPercentage : jsstring := str "Error: Invalid percentage".         (* l.118 *)

(** ** The execution primitive

    [Function(body)()] compiles [body] as the body of a function and calls
    it. Either an exception is thrown (a SyntaxError from the constructor,
    or any error while running) or a value is returned. [evaluate] uses the
    returned value only through [isFinite(result)] and [result * 100000000],
    which both convert it to a number first, so that a value that is not a
    number is described by what that conversion gives: a number, or nothing
    when the conversion itself throws. *)
Inductive JsValue : Type :=
| VNumber (x : float)
| VOther (asNumber : option float).

Inductive Completion : Type :=
| Returned (result : JsValue)
| Thrown.

Definition toNumber (v : JsValue) : option float :=
  match v with
  | VNumber x => Some x
  | VOther n => n
  end.

(** ['"use strict"; return (' + expression + ')'] *)
Definition functionBody (expression : jsstring) : jsstring :=
  (34%N :: str "use strict") ++ (34%N :: str "; return (") ++ expression ++ str ")".

(** ** [class SafeCalculator] *)

(** A step of a function body with early [return]s and a loop: go on with a
    value, return from the function, or still be inside the loop when the
    fuel is spent. *)
Inductive Flow (A : Type) : Type :=
| Go (a : A)
| Stop (v : JsResult)
| Spin.
Arguments Go {A} a.
Arguments Stop {A} v.
Arguments Spin {A}.

Module SafeCalculator.

(** *** Normalisation (l.19-23) *)

(** [expression.replace(/Ï€/g, Math.PI.toString())]: the pattern is the two
    code units U+00CF U+20AC of the source text. *)
Fixpoint replaceGlyph (s : jsstring) : jsstring :=
  match s with
  | a :: ((b :: rest) as tl) =>
      if (a =? 0xCF)%N && (b =? 0x20AC)%N
      then Math.PI_toString ++ replaceGlyph rest
      else a :: replaceGlyph tl
  | _ => s
  end.

(** [expression.replace(/pi/gi, Math.PI.toString())]: without the [u] flag
    only the ASCII letters fold onto [p] and [i]. *)
Fixpoint replacePi (s : jsstring) : jsstring :=
  match s with
  | a :: ((b :: rest) as tl) =>
      if ((a =? ch "p") || (a =? ch "P"))%N && ((b =? ch "i") || (b =? ch "I"))%N
      then Math.PI_toString ++ replacePi rest
      else a :: replacePi tl
  | _ => s
  end.

Definition normalize (expression : jsstring) : jsstring :=
  replacePi (replaceGlyph (removeWhiteSpace expression)).

(** *** The power rewriting (l.27-40)

    The pattern is [(\([^)]+\)|\d+(?:\.\d+)?)\^(\d+(?:\.\d+)?)]. Every
    quantifier in it is greedy and is followed by a character it cannot
    itself match, so that giving characters back never turns a failure
    into a success: the match at a position is the one the functions below
    compute, taking the longest run each time. *)

(** [\d+(?:\.\d+)?] at the head of [s]: the text matched and what follows. *)
Definition matchNumber (s : jsstring) : option (jsstring * jsstring) :=
  match spanDigits s with
  | ([], _) => None
  | (int, rest) =>
      match rest with
      | dot :: rest' =>
          if (dot =? ch ".")%N
          then match spanDigits rest' with
               | ([], _) => Some (int, rest)
               | (frac, rest'') => Some (int ++ dot :: frac, rest'')
               end
          else Some (int, rest)
      | [] => Some (int, rest)
      end
  end.

Fixpoint spanNotClose (s : jsstring) : jsstring * jsstring :=
  match s with
  | c :: t =>
      if (c =? ch ")")%N then ([], s)
      else let (d, r) := spanNotClose t in (c :: d, r)
  | [] => ([], [])
  end.

(** [\([^)]+\)] at the head of [s]. *)
Definition matchGroup (s : jsstring) : option (jsstring * jsstring) :=
  match s with
  | c :: t =>
      if (c =? ch "(")%N
      then match spanNotClose t with
           | ([], _) => None
           | (inner, close :: rest) => Some (c :: inner ++ [close], rest)
           | (_, []) => None
           end
      else None
  | [] => None
  end.

(** The whole pattern at the head of [s]: the two captures. The first
    alternative starts with a parenthesis and the second with a digit, so
    that at most one of them applies. *)
Definition matchPower (s : jsstring) : option (jsstring * jsstring) :=
  let base := match matchGroup s with
              | Some r => Some r
              | None => matchNumber s
              end in
  match base with
  | Some (base, c :: rest) =>
      if (c =? ch "^")%N
      then match matchNumber rest with
           | Some (exp, _) => Some (base, exp)
           | None => None
           end
      else None
  | _ => None
  end.

(** [expression.replace(/.../g, (match, base, exp) => `Math.pow(${base},${exp})`)]:
    the matches are looked for from left to right and do not overlap;
    [skip] counts the code units of the last match still to be passed. *)
Fixpoint replacePowerFrom (skip : nat) (s : jsstring) : jsstring :=
  match s with
  | [] => []
  | c :: t =>
      match skip with
      | S k => replacePowerFrom k t
      | O =>
          match matchPower s with
          | Some (base, exp) =>
              str "Math.pow(" ++ base ++ str "," ++ exp ++ str ")"
              ++ replacePowerFrom (List.length base + List.length exp) t
          | None => c :: replacePowerFrom 0 t
          end
      end
  end.

Definition replacePower (s : jsstring) : jsstring := replacePowerFrom 0 s.

(** The [while] loop of l.28-40. One unit of fuel is one pass through its
    body. *)
Fixpoint powerLoop (fuel : nat) (expression : jsstring) (hasPower : bool)
  {struct fuel} : Flow (jsstring * bool) :=
  if includes (ch "^") expression then
    match fuel with
    | O => Spin
    | S fuel' =>
        let expression := replacePower expression in
        if negb (includes (ch "^") expression) then Go (expression, true)
        else if (10 <? splitLength (ch "^") expression)%nat
             then Stop (Message errTooManyPowerOps)
             else powerLoop fuel' expression true
    end
  else Go (expression, hasPower).

(** *** Validation (l.44-61) *)

Definition inOriginalClass (c : N) : bool :=
  isDigit c
  || existsb (N.eqb c)
       [ch "+"; ch "-"; ch "*"; ch "/"; ch "("; ch ")"; ch "."; 0xCF; 0x20AC]%N.

Definition inMathPowClass (c : N) : bool :=
  inOriginalClass c
  || existsb (N.eqb c)
       [ch "M"; ch "a"; ch "t"; ch "h"; ch "p"; ch "o"; ch "w"; ch ","]
  || isWhiteSpace c.

(** [/^[...]+$/.test(s)] *)
Definition testClass (inClass : N -> bool) (s : jsstring) : bool :=
  negb (JsString.eqb s []) && forallb inClass s.

Definition originalPattern : jsstring -> bool := testClass inOriginalClass.
Definition withMathPow : jsstring -> bool := testClass inMathPowClass.

(** The [for] loop of l.56-60: [None] when it returns from inside. *)
Fixpoint parenLoop (parenCount : Z) (chars : jsstring) : option Z :=
  match chars with
  | [] => Some parenCount
  | char :: rest =>
      let parenCount := if (char =? ch "(")%N then (parenCount + 1)%Z else parenCount in
      let parenCount := if (char =? ch ")")%N then (parenCount - 1)%Z else parenCount in
      if (parenCount <? 0)%Z then None else parenLoop parenCount rest
  end.

(** [/\/\s*0(?!\.)/.test(s)] *)
Definition zeroFollows (s : jsstring) : bool :=
  match trimStart s with
  | z :: rest =>
      (z =? ch "0")%N
      && match rest with
         | d :: _ => negb (d =? ch ".")%N
         | [] => true
         end
  | [] => false
  end.

Fixpoint divisionByZeroTest (s : jsstring) : bool :=
  match s with
  | [] => false
  | c :: t => ((c =? ch "/")%N && zeroFollows t) || divisionByZeroTest t
  end.

(** [!expression || expression.trim() === ''] *)
Definition isEmptyInput (expression : jsstring) : bool :=
  JsString.eqb expression [] || JsString.eqb (trim expression) [].

(** l.14-61: everything before the division check. *)
Definition sanitize (fuel : nat) (expression : jsstring) : Flow jsstring :=
  if isEmptyInput expression
  then Stop (Message errEmptyExpression)
  else
    let expression := removeWhiteSpace expression in
    let expression := replaceGlyph expression in
    let expression := replacePi expression in
    match powerLoop fuel expression false with
    | Spin => Spin
    | Stop v => Stop v
    | Go (expression, hasPower) =>
        if negb hasPower && negb (originalPattern (removeWhiteSpace expression))
        then Stop (Message errInvalidCharacters)
        else if hasPower && negb (withMathPow expression)
        then Stop (Message errInvalidPowerExpression)
        else
          match parenLoop 0 expression with
          | None => Stop (Message errUnmatchedParens)
          | Some parenCount =>
              if negb (parenCount =? 0)%Z
              then Stop (Message errUnmatchedParens)
              else Go expression
          end
    end.

Section Evaluate.

(** The JavaScript engine behind [Function(...)()]. *)
Variable runFunction : jsstring -> Completion.

(** l.63-82: the division check, the execution and the rounding. An
    exception inside the [try] block gives the message of the [catch]. *)
Definition execute (expression : jsstring) : JsResult :=
  if divisionByZeroTest expression then Message errDivisionByZero
  else
    match runFunction (functionBody expression) with
    | Thrown => Message errInvalidExpression
    | Returned result =>
        match toNumber result with
        | None => Message errInvalidExpression
        | Some r =>
            if negb (PrimFloat.is_finite r) then Message errInvalidResult
            else Number (Math.round (r * 100000000) / 100000000)%float
        end
    end.

(** [static evaluate(expression)]: [None] when the loop of l.28 has not
    finished after [fuel] passes. *)
Definition evaluate (fuel : nat) (expression : jsstring) : option JsResult :=
  match sanitize fuel expression with
  | Go expression => Some (execute expression)
  | Stop v => Some v
  | Spin => None
  end.

(** [static percentage(expression)]. [evaluate] throws nothing on a
    string, all it does outside its own [try] being total string
    operations, so that the [catch] of l.117 is never entered. *)
Definition percentage (fuel : nat) (expression : jsstring) : option JsResult :=
  match evaluate fuel expression with
  | Some (Message value) => Some (Message value)
  | Some (Number value) => Some (Number (value / 100)%float)
  | None => None
  end.

End Evaluate.

(** [static sqrt(value)] *)
Definition sqrt (value : float) : JsResult :=
  if (value <? 0)%float then Message errNegativeSqrt
  else Number (Math.sqrt value).

(** [static power(base, exponent)], over the [Math.pow] of the engine. *)
Definition power (Math_pow : float -> float -> float) (base exponent : float)
  : JsResult :=
  let result := Math_pow base exponent in
  if negb (PrimFloat.is_finite result) then Message errInvalidPower
  else Number result.

End SafeCalculator.

(** ** [class CalculatorState]: the history *)

Module CalculatorState.

(** [{ expression, result, timestamp: new Date() }] *)
Record HistoryEntry : Type := {
  expression : jsstring;
  result : float;
  timestamp : Z
}.

Record t : Type := {
  history : list HistoryEntry;
  maxHistoryItems : nat
}.

(** [constructor()] *)
Definition new : t := {| history := []; maxHistoryItems := 10 |}.

(** [addToHistory(expression, result)]; [now] is what [new Date()] reads.
    [unshift] puts the entry in front and [pop] removes the last one.
    [saveHistory] only writes to [localStorage]. *)
Definition addToHistory (expression : jsstring) (result : float) (now : Z)
  (this : t) : t :=
  let history :=
    {| expression := expression; result := result; timestamp := now |}
    :: history this in
  let history :=
    if (maxHistoryItems this <? List.length history)%nat
    then removelast history
    else history in
  {| history := history; maxHistoryItems := maxHistoryItems this |}.

(** [clearHistory()] *)
Definition clearHistory (this : t) : t :=
  {| history := []; maxHistoryItems := maxHistoryItems this |}.

(** The two operations as events, and a run of them. *)
Inductive Op : Type :=
| AddToHistory (expression : jsstring) (result : float) (now : Z)
| ClearHistory.

Definition step (this : t) (op : Op) : t :=
  match op with
  | AddToHistory e r now => addToHistory e r now this
  | ClearHistory => clearHistory this
  end.

Definition run (ops : list Op) (this : t) : t := fold_left step ops this.

(** What [localStorage.getItem('calculatorHistory')] holds when the page
    starts, as [loadHistory] sees it: nothing ([null], or the empty text,
    which is falsy), a text on which [JSON.parse] throws, or an array of
    entries, which is what [saveHistory], the only writer of the item,
    stores.  The handlers below never read a field of an entry that is
    already in the history; an array with an entry that is not of the shape
    of [HistoryEntry] (a result that was not finite is read back as [null])
    is not described by [Parsed]. *)
Inductive Saved : Type :=
| NoItem
| Unparsable
| Parsed (entries : list HistoryEntry).

(** [loadHistory()]: the array read back becomes the history as it is,
    whatever its length; the [catch] leaves the history as it was. *)
Definition loadHistory (saved : Saved) (this : t) : t :=
  match saved with
  | NoItem => this
  | Unparsable => this
  | Parsed entries =>
      {| history := entries; maxHistoryItems := maxHistoryItems this |}
  end.

End CalculatorState.

(** ** The display and the operator handler

    The state is [display.value]; the sound and the focus are left out. *)

(** [currentValue === 'Error' || currentValue.startsWith('Error:')] *)
Definition showsError (currentValue : jsstring) : bool :=
  JsString.eqb currentValue (str "Error")
  || startsWith (str "Error:") currentValue.

(** [function appendToDisplay(value)] *)
Definition appendToDisplay (value : jsstring) (display : jsstring) : jsstring :=
  let currentValue := display in
  if showsError currentValue then value else display ++ value.

(** [/[+\-*/]/.test(s)] *)
Definition isOperatorChar (c : N) : bool :=
  existsb (N.eqb c) [ch "+"; ch "-"; ch "*"; ch "/"].

Definition testOperator (s : jsstring) : bool := existsb isOperatorChar s.

(** [function handleOperatorClick(value)] *)
Definition handleOperatorClick (value : jsstring) (display : jsstring) : jsstring :=
  let currentValue := display in
  (* l.334-336 *)
  let display := if showsError currentValue then [] else display in
  (* l.339-341 *)
  if JsString.eqb currentValue [] && negb (JsString.eqb value (str "-"))
  then display
  else
    (* l.344-349 *)
    let lastChar := sliceLast currentValue in
    if testOperator lastChar && negb (JsString.eqb value (str "-"))
    then sliceInit currentValue ++ value
    else appendToDisplay value display.

(** ** A reference engine for plain arithmetic

    What [Function(body)()] returns when the expression is made of decimal
    literals, the four binary operators, the unary signs and parentheses:
    the literals denote the nearest binary64 value and the operators are
    those of IEEE 754. [value] is defined on that fragment only; on anything
    else (a comment, a regular expression literal, [**], [++], [--], a
    literal with a leading zero, a call, an identifier) it answers [None]
    and this development says nothing. *)

Module Arith.

Definition digitsValue (ds : jsstring) : Z :=
  fold_left (fun acc c => (10 * acc + Z.of_N (c - 48))%Z) ds 0%Z.

(** The number nearest to [m / 10^k] (ties to even). *)
Definition decimal (m : Z) (k : nat) : float :=
  match m with
  | Zpos p =>
      SF2Prim (SFdiv prec emax (S754_finite false p 0)
                 (S754_finite false (Z.to_pos (10 ^ Z.of_nat k)) 0))
  | _ => PrimFloat.zero
  end.

(** A decimal literal at the head of [s]: its digits read as an integer,
    the number of digits after the point, and what follows. *)
Definition literal (s : jsstring) : option (Z * nat * jsstring) :=
  let (int, rest) := spanDigits s in
  let leadingZero :=
    match int with
    | c :: _ :: _ => (c =? ch "0")%N
    | _ => false
    end in
  if leadingZero then None
  else
    match rest with
    | dot :: rest' =>
        if (dot =? ch ".")%N
        then
          let (frac, rest'') := spanDigits rest' in
          match int ++ frac with
          | [] => None
          | ds => Some (digitsValue ds, List.length frac, rest'')
          end
        else
          match int with
          | [] => None
          | _ => Some (digitsValue int, O, rest)
          end
    | [] =>
        match int with
        | [] => None
        | _ => Some (digitsValue int, O, rest)
        end
    end.

(** Two equal signs in a row form the token [++] or [--], which no
    expression of the fragment contains: the parser refuses them. *)
Fixpoint parseExpr (fuel : nat) (s : jsstring) : option (float * jsstring) :=
  match fuel with
  | O => None
  | S n =>
      match parseTerm n s with
      | Some (v, rest) => parseExprRest n v rest
      | None => None
      end
  end
with parseExprRest (fuel : nat) (acc : float) (s : jsstring)
  : option (float * jsstring) :=
  match fuel with
  | O => None
  | S n =>
      match s with
      | c :: t =>
          if (c =? ch "+")%N then
            if startsWithChar c t then None
            else match parseTerm n t with
                 | Some (v, rest) => parseExprRest n (acc + v)%float rest
                 | None => None
                 end
          else if (c =? ch "-")%N then
            if startsWithChar c t then None
            else match parseTerm n t with
                 | Some (v, rest) => parseExprRest n (acc - v)%float rest
                 | None => None
                 end
          else Some (acc, s)
      | [] => Some (acc, s)
      end
  end
with parseTerm (fuel : nat) (s : jsstring) : option (float * jsstring) :=
  match fuel with
  | O => None
  | S n =>
      match parseUnary n s with
      | Some (v, rest) => parseTermRest n v rest
      | None => None
      end
  end
with parseTermRest (fuel : nat) (acc : float) (s : jsstring)
  : option (float * jsstring) :=
  match fuel with
  | O => None
  | S n =>
      match s with
      | c :: t =>
          if (c =? ch "*")%N then
            match parseUnary n t with
            | Some (v, rest) => parseTermRest n (acc * v)%float rest
            | None => None
            end
          else if (c =? ch "/")%N then
            match parseUnary n t with
            | Some (v, rest) => parseTermRest n (acc / v)%float rest
            | None => None
            end
          else Some (acc, s)
      | [] => Some (acc, s)
      end
  end
with parseUnary (fuel : nat) (s : jsstring) : option (float * jsstring) :=
  match fuel with
  | O => None
  | S n =>
      match s with
      | c :: t =>
          if (c =? ch "-")%N then
            if startsWithChar c t then None
            else match parseUnary n t with
                 | Some (v, rest) => Some ((- v)%float, rest)
                 | None => None
                 end
          else if (c =? ch "+")%N then
            if startsWithChar c t then None
            else parseUnary n t
          else if (c =? ch "(")%N then
            match parseExpr n t with
            | Some (v, close :: rest) =>
                if (close =? ch ")")%N then Some (v, rest) else None
            | _ => None
            end
          else
            match literal s with
            | Some (m, k, rest) => Some (decimal m k, rest)
            | None => None
            end
      | [] => None
      end
  end.

Fixpoint stripPrefix (p s : jsstring) : option jsstring :=
  match p, s with
  | [], _ => Some s
  | x :: p', y :: s' => if (x =? y)%N then stripPrefix p' s' else None
  | _ :: _, [] => None
  end.

(** The value of ["use strict"; return <expression>]. *)
Definition value (body : jsstring) : option float :=
  match stripPrefix ((34%N :: str "use strict") ++ (34%N :: str "; return ")) body with
  | Some e =>
      match parseExpr (4 * List.length e + 4) e with
      | Some (v, []) => Some v
      | _ => None
      end
  | None => None
  end.

(** An engine that follows [value] where it is defined. *)
Definition engine (body : jsstring) : Completion :=
  match value body with
  | Some v => Returned (VNumber v)
  | None => Thrown
  end.

End Arith.

(** ** The vocabulary of the statements *)

(** What [/\/\s*0(?!\.)/] looks for: a slash, any white space, a zero, and
    then anything but a decimal point. *)
Definition DivisionPattern (e : jsstring) : Prop :=
  exists pre ws post,
    e = pre ++ ch "/" :: ws ++ ch "0" :: post
    /\ forallb isWhiteSpace ws = true
    /\ startsWithChar (ch ".") post = false.

(** The sentence of the specification, word for word: the text contains
    [/0] and what follows is not a decimal digit. *)
Module SpecWords.

Fixpoint slashZeroNotDigit (s : jsstring) : bool :=
  match s with
  | [] => false
  | c :: t =>
      ((c =? ch "/")%N
       && match t with
          | z :: rest =>
              (z =? ch "0")%N
              && match rest with
                 | d :: _ => negb (isDigit d)
                 | [] => true
                 end
          | [] => false
          end)
      || slashZeroNotDigit t
  end.

End SpecWords.

(** The ten kinds of the taxonomy of the specification, as the messages of
    the code that carry them. *)
Definition taxonomy : list jsstring :=
  [errEmptyExpression; errInvalidCharacters; errTooManyPowerOps;
   errUnmatchedParens; errDivisionByZero; errInvalidExpression;
   errInvalidResult; errNegativeSqrt; errInvalidPower; errInvalidPercentage].

(** Every message of the code: the ten above and the one of l.51. *)
Definition errorMessages : list jsstring :=
  taxonomy ++ [errInvalidPowerExpression].

(** The four operators. *)
Definition operators : list jsstring := [str "+"; str "-"; str "*"; str "/"].

(** The markers the program writes on the display: the error messages; and
    the bare word the handlers also test for. *)
Definition errorMarkers : list jsstring := str "Error" :: errorMessages.

(** The literal [1] followed by 301 zeros. *)
Definition tenToThe301 : jsstring := ch "1" :: repeat (ch "0") 301.

(** Ten additions to the history, stamped 0 to 9. *)
Definition tenAdditions : list CalculatorState.Op :=
  map (fun n => CalculatorState.AddToHistory (str "1+1") 2 (Z.of_nat n)) (seq 0 10).

(** The mantissa of a shift record is not negative. *)
Definition nonnegRecord (mrs : shr_record) : Prop := (0 <= shr_m mrs)%Z.

(** ** The rest of [src/app.js] *)

(** *** The global [parseFloat] and the idiom [parseFloat(v) || 0] *)

Module Global.

(** The number nearest to [m * 10^x] (ties to even), for [m >= 0]. *)
Definition scaled (m : Z) (x : Z) : float :=
  match m with
  | Zpos p =>
      SF2Prim (SFdiv prec emax
                 (S754_finite false (Z.to_pos (Zpos p * 10 ^ Z.max x 0)) 0)
                 (S754_finite false (Z.to_pos (10 ^ Z.max (- x) 0)) 0))
  | _ => PrimFloat.zero
  end.

(** An ExponentPart at the head of [s], [e] or [E], an optional sign and at
    least one digit: its value, and 0 when there is none. *)
Definition exponentPart (s : jsstring) : Z :=
  match s with
  | e :: rest =>
      if ((e =? ch "e") || (e =? ch "E"))%N then
        let (negative, rest) :=
          match rest with
          | sign :: rest' =>
              if (sign =? ch "-")%N then (true, rest')
              else if (sign =? ch "+")%N then (false, rest')
              else (false, rest)
          | [] => (false, rest)
          end in
        match fst (spanDigits rest) with
        | [] => 0%Z
        | ds => if negative then (- Arith.digitsValue ds)%Z else Arith.digitsValue ds
        end
      else 0%Z
  | [] => 0%Z
  end.

(** The value of the longest prefix of [s] that is a
    StrUnsignedDecimalLiteral; [None] when no prefix is one. *)
Definition unsignedPrefix (s : jsstring) : option float :=
  if startsWith (str "Infinity") s then Some PrimFloat.infinity
  else
    let (int, rest) := spanDigits s in
    let (frac, rest) :=
      match rest with
      | dot :: rest' =>
          if (dot =? ch ".")%N then spanDigits rest' else ([], rest)
      | [] => ([], rest)
      end in
    match int ++ frac with
    | [] => None
    | ds =>
        Some (scaled (Arith.digitsValue ds)
                (exponentPart rest - Z.of_nat (List.length frac)))
    end.

(** [parseFloat(string)]: leading white space is skipped, then the longest
    prefix that is a StrDecimalLiteral is read; NaN when there is none. *)
Definition parseFloat (inputString : jsstring) : float :=
  let trimmedString := trimStart inputString in
  let (negative, unsigned) :=
    match trimmedString with
    | sign :: rest =>
        if (sign =? ch "-")%N then (true, rest)
        else if (sign =? ch "+")%N then (false, rest)
        else (false, trimmedString)
    | [] => (false, trimmedString)
    end in
  match unsignedPrefix unsigned with
  | None => PrimFloat.nan
  | Some a => if negative then PrimFloat.opp a else a
  end.

(** [x || 0] on a number: NaN and the two zeros are falsy. *)
Definition orZero (x : float) : float :=
  if PrimFloat.is_nan x || PrimFloat.is_zero x then PrimFloat.zero else x.

End Global.

(** *** The handlers of the display (l.324-456) *)

(** [function handleNumberClick(value)] *)
Definition handleNumberClick (value : jsstring) (display : jsstring) : jsstring :=
  appendToDisplay value display.

(** [function handleClear()] *)
Definition handleClear (display : jsstring) : jsstring := [].

(** [function handleBackspace()] *)
Definition handleBackspace (display : jsstring) : jsstring :=
  let currentValue := display in
  if showsError currentValue then [] else sliceInit currentValue.

(** [function handleConstant(value)]: the value tested is the two code
    units of the glyph. *)
Definition handleConstant (value : jsstring) (display : jsstring) : jsstring :=
  if JsString.eqb value [0xCF; 0x20AC]%N
  then appendToDisplay Math.PI_toString display
  else display.

(** The whole state the handlers of the result touch. *)
Record App : Type := {
  display : jsstring;
  calculatorState : CalculatorState.t
}.

Section Handlers.

(** The engine: [Function(...)()] and [Number.prototype.toString]. *)
Variable runFunction : jsstring -> Completion.
Variable Number_toString : float -> jsstring.

(** [result.toString()] on what the calculator returns; a string is its
    own [toString()]. *)
Definition resultToString (result : JsResult) : jsstring :=
  match result with
  | Number value => Number_toString value
  | Message text => text
  end.

(** [typeof result === 'string' && result.startsWith('Error')] *)
Definition isErrorResult (result : JsResult) : bool :=
  match result with
  | Message text => startsWith (str "Error") text
  | Number _ => false
  end.

(** [function handleEquals()]; [now] is what [new Date()] reads, and [None]
    means that [evaluate] has not returned. A string without the prefix
    would reach l.389 as a result: [evaluate] returns none, and the model
    then only shows it. *)
Definition handleEquals (fuel : nat) (now : Z) (app : App) : option App :=
  let expression := trim (display app) in
  if JsString.eqb expression [] then Some app
  else if showsError expression then Some app
  else
    match SafeCalculator.evaluate runFunction fuel expression with
    | None => None
    | Some result =>
        if isErrorResult result
        then Some {| display := resultToString result;
                     calculatorState := calculatorState app |}
        else
          match result with
          | Number value =>
              Some {| display := Number_toString value;
                      calculatorState :=
                        CalculatorState.addToHistory expression value now
                          (calculatorState app) |}
          | Message text =>
              Some {| display := text; calculatorState := calculatorState app |}
          end
    end.

(** [function handlePercentage()]: l.405 writes the string and l.408 its
    [toString()], which is the same text. *)
Definition handlePercentage (fuel : nat) (display : jsstring) : option jsstring :=
  let currentValue := trim display in
  if JsString.eqb currentValue [] || showsError currentValue then Some display
  else
    match SafeCalculator.percentage runFunction fuel currentValue with
    | None => None
    | Some result => Some (resultToString result)
    end.

(** [function handleScientific(functionType)] *)
Definition handleScientific (functionType : jsstring) (display : jsstring)
  : jsstring :=
  let currentValue := trim display in
  if JsString.eqb currentValue [] || showsError currentValue then display
  else
    let value := Global.parseFloat currentValue in
    if JsString.eqb functionType (str "sqrt")
    then resultToString (SafeCalculator.sqrt value)
    else if JsString.eqb functionType (str "square")
    then resultToString (Number (value * value)%float)
    else if JsString.eqb functionType (str "power")
    then appendToDisplay (str "^") display
    else display.

(** The events of the calculator, and what each does to the state. *)
Inductive Event : Type :=
| NumberClick (value : jsstring)
| OperatorClick (value : jsstring)
| ClearClick
| BackspaceClick
| EqualsClick (now : Z)
| PercentageClick
| ScientificClick (functionType : jsstring)
| ConstantClick (value : jsstring)
| ClearHistoryClick.

Definition withDisplay (app : App) (value : jsstring) : App :=
  {| display := value; calculatorState := calculatorState app |}.

Definition handle (fuel : nat) (app : App) (event : Event) : option App :=
  match event with
  | NumberClick value => Some (withDisplay app (handleNumberClick value (display app)))
  | OperatorClick value => Some (withDisplay app (handleOperatorClick value (display app)))
  | ClearClick => Some (withDisplay app (handleClear (display app)))
  | BackspaceClick => Some (withDisplay app (handleBackspace (display app)))
  | EqualsClick now => handleEquals fuel now app
  | PercentageClick =>
      match handlePercentage fuel (display app) with
      | Some value => Some (withDisplay app value)
      | None => None
      end
  | ScientificClick functionType =>
      Some (withDisplay app (handleScientific functionType (display app)))
  | ConstantClick value => Some (withDisplay app (handleConstant value (display app)))
  | ClearHistoryClick =>
      Some {| display := display app;
              calculatorState := CalculatorState.clearHistory (calculatorState app) |}
  end.

Fixpoint handleAll (fuel : nat) (app : App) (events : list Event) : option App :=
  match events with
  | [] => Some app
  | event :: rest =>
      match handle fuel app event with
      | Some app' => handleAll fuel app' rest
      | None => None
      end
  end.

End Handlers.

(** The page as it starts (l.274-275): an empty display, and
    [new CalculatorState()] on which [loadHistory()] has been called, with
    [saved] the item found in [localStorage]. *)
Definition startOfPage (saved : CalculatorState.Saved) : App :=
  {| display := [];
     calculatorState :=
       CalculatorState.loadHistory saved CalculatorState.new |}.

(** *** [function handleKeyboardInput(event)] (l.570-636) *)

Record KeyboardEvent : Type := {
  key : jsstring;
  ctrlKey : bool
}.

(** What the page answers to the tests
    [xToggle && document.activeElement !== xToggle]. *)
Record Page : Type := {
  historyToggleFree : bool;
  themeToggleFree : bool;
  soundToggleFree : bool
}.

(** The handler a key press ends in. *)
Inductive Handler : Type :=
| CallNumberClick (value : jsstring)
| CallOperatorClick (value : jsstring)
| CallEquals
| CallClear
| CallBackspace
| CallToggleHistory
| CallThemeToggle
| CallSoundToggle
| CallCopy
| CallPercentage
| CallNothing.

(** [/[0-9+\-*/().=]/.test(key)] *)
Definition isCalculatorChar (c : N) : bool :=
  isDigit c
  || existsb (N.eqb c)
       [ch "+"; ch "-"; ch "*"; ch "/"; ch "("; ch ")"; ch "."; ch "="].

Definition keyIs (event : KeyboardEvent) (name : string) : bool :=
  JsString.eqb (key event) (str name).

Definition handleKeyboardInput (event : KeyboardEvent) (page : Page) : Handler :=
  if existsb isDigit (key event) then CallNumberClick (key event)
  else if keyIs event "+" then CallOperatorClick (str "+")
  else if keyIs event "-" then CallOperatorClick (str "-")
  else if keyIs event "*" then CallOperatorClick (str "*")
  else if keyIs event "/" then CallOperatorClick (str "/")
  else if keyIs event "(" then CallOperatorClick (str "(")
  else if keyIs event ")" then CallOperatorClick (str ")")
  else if keyIs event "." then CallNumberClick (str ".")
  else if keyIs event "=" || keyIs event "Enter" then CallEquals
  else if keyIs event "Escape" || (keyIs event "c" && ctrlKey event) then CallClear
  else if keyIs event "Backspace" then CallBackspace
  else if keyIs event "h" || keyIs event "H"
  then (if historyToggleFree page then CallToggleHistory else CallNothing)
  else if keyIs event "t" || keyIs event "T"
  then (if themeToggleFree page then CallThemeToggle else CallNothing)
  else if keyIs event "s" || keyIs event "S"
  then (if soundToggleFree page then CallSoundToggle else CallNothing)
  else if keyIs event "c" && ctrlKey event then CallCopy
  else if keyIs event "%" then CallPercentage
  else CallNothing.

(** Whether [event.preventDefault()] has been called when the handler
    returns. *)
Definition preventsDefault (event : KeyboardEvent) (page : Page) : bool :=
  existsb isCalculatorChar (key event)
  || keyIs event "Enter" || keyIs event "Escape" || keyIs event "Backspace"
  || match handleKeyboardInput event page with
     | CallToggleHistory | CallThemeToggle | CallSoundToggle
     | CallCopy | CallPercentage => true
     | _ => false
     end.

(** *** [class ThemeManager] and [class SoundManager] with their slot of
    [localStorage] ([None] is the [null] of a missing key) *)

Module ThemeManager.

Record t : Type := {
  currentTheme : jsstring;
  dataTheme : jsstring;            (* the [data-theme] attribute of the body *)
  calculatorTheme : option jsstring (* the slot of [localStorage] *)
}.

(** [constructor()]: [localStorage.getItem('calculatorTheme') || 'light'],
    then [applyTheme]. *)
Definition new (saved : option jsstring) : t :=
  let theme :=
    match saved with
    | Some s => if JsString.eqb s [] then str "light" else s
    | None => str "light"
    end in
  {| currentTheme := theme; dataTheme := theme; calculatorTheme := saved |}.

(** [toggle()] *)
Definition toggle (this : t) : t :=
  let theme :=
    if JsString.eqb (currentTheme this) (str "light")
    then str "dark" else str "light" in
  {| currentTheme := theme; dataTheme := theme; calculatorTheme := Some theme |}.

End ThemeManager.

Module SoundManager.

Record t : Type := {
  enabled : bool;
  audioContext : bool;              (* whether an audio context exists *)
  calculatorSound : option jsstring (* the slot of [localStorage] *)
}.

(** [constructor()]: [localStorage.getItem('calculatorSound') !== 'false'] *)
Definition new (saved : option jsstring) (audio : bool) : t :=
  {| enabled :=
       match saved with
       | Some s => negb (JsString.eqb s (str "false"))
       | None => true
       end;
     audioContext := audio;
     calculatorSound := saved |}.

(** [toggle()]: the flag is negated and its [toString()] stored. *)
Definition toggle (this : t) : t :=
  let enabled := negb (enabled this) in
  {| enabled := enabled;
     audioContext := audioContext this;
     calculatorSound := Some (if enabled then str "true" else str "false") |}.

(** [play(frequency, duration)]: the tone started, if any. *)
Definition play (frequency duration : Z) (this : t) : option (Z * Z) :=
  if negb (enabled this) || negb (audioContext this) then None
  else Some (frequency, duration).

End SoundManager.

(** *** The vocabulary of the further statements *)

(** The characters the buttons and the keys of the calculator enter. *)
Definition isKeypadChar (c : N) : bool :=
  isDigit c
  || existsb (N.eqb c)
       [ch "+"; ch "-"; ch "*"; ch "/"; ch "("; ch ")"; ch "."; ch "^"].

(** The net count of parentheses of a text. *)
Fixpoint depth (s : jsstring) : Z :=
  match s with
  | [] => 0
  | c :: t =>
      ((if (c =? ch "(")%N then 1 else 0)
       - (if (c =? ch ")")%N then 1 else 0) + depth t)%Z
  end.

(** Balanced parentheses: as many closed as opened, and never more closed
    than opened so far. *)
Definition Balanced (s : jsstring) : Prop :=
  depth s = 0%Z /\ forall p q, s = p ++ q -> (0 <= depth p)%Z.

(** The entries added since the last clearing, most recent first. *)
Fixpoint additions (entries : list CalculatorState.HistoryEntry)
  (ops : list CalculatorState.Op) : list CalculatorState.HistoryEntry :=
  match ops with
  | [] => entries
  | CalculatorState.AddToHistory e r now :: rest =>
      additions
        ({| CalculatorState.expression := e;
            CalculatorState.result := r;
            CalculatorState.timestamp := now |} :: entries) rest
  | CalculatorState.ClearHistory :: rest => additions [] rest
  end.

(** The number of carets of a text. *)
Definition carets (s : jsstring) : nat :=
  List.length (filter (N.eqb (ch "^")) s).

(** The events of the keypad that only edit the display: the digit, point,
    operator and parenthesis buttons with the characters they carry, clear,
    backspace, the constant and the power button. *)
Definition editingEvent (event : Event) : Prop :=
  match event with
  | NumberClick value | OperatorClick value => forallb isKeypadChar value = true
  | ClearClick | BackspaceClick | ConstantClick _ => True
  | ScientificClick functionType => functionType = str "power"
  | EqualsClick _ | PercentageClick | ClearHistoryClick => False
  end.

(** The entries of a state are entries that were loaded when the page
    started or results of [evaluate], and there are no more of them than
    ten or than were loaded. *)
Definition recorded (runFunction : jsstring -> Completion) (fuel : nat)
  (loaded : list CalculatorState.HistoryEntry) (app : App) : Prop :=
  CalculatorState.maxHistoryItems (calculatorState app) = 10%nat
  /\ (List.length (CalculatorState.history (calculatorState app))
      <= Nat.max 10 (List.length loaded))%nat
  /\ forall entry,
       In entry (CalculatorState.history (calculatorState app)) ->
       In entry loaded
       \/ SafeCalculator.evaluate runFunction fuel
            (CalculatorState.expression entry)
          = Some (Number (CalculatorState.result entry)).

(** Twelve entries, as a history read from [localStorage]. *)
Definition twelveEntries : list CalculatorState.HistoryEntry :=
  map (fun n =>
         {| CalculatorState.expression := str "1+1";
            CalculatorState.result := 2;
            CalculatorState.timestamp := Z.of_nat n |})
      (seq 0 12).

(** * Properties *)

Import SafeCalculator.

(** ** Equality of strings *)

Lemma jsstring_eqb_eq (a b : jsstring) : JsString.eqb a b = true <-> a = b.
Proof.
  revert b; induction a as [|x a IH]; intros [|y b]; simpl;
    try (split; [discriminate | intros H; discriminate H]);
    try (split; reflexivity).
  rewrite andb_true_iff, N.eqb_eq, IH.
  split; [intros [-> ->]; reflexivity | intros H; injection H; auto].
Qed.

Lemma jsstring_eqb_refl (a : jsstring) : JsString.eqb a a = true.
Proof. apply jsstring_eqb_eq; reflexivity. Qed.

Lemma jsstring_eqb_neq (a b : jsstring) : JsString.eqb a b = false <-> a <> b.
Proof.
  rewrite <- jsstring_eqb_eq. destruct (JsString.eqb a b); split; congruence.
Qed.

(** ** The loop of the power rewriting *)

Lemma powerLoop_without_caret (fuel : nat) (e : jsstring) (hasPower : bool) :
  includes (ch "^") e = false -> powerLoop fuel e hasPower = Go (e, hasPower).
Proof.
  intros H. destruct fuel; cbn [powerLoop]; rewrite H; reflexivity.
Qed.

(** A pass that rewrites nothing and leaves fewer than ten carets is
    repeated for ever: the test of l.37 counts carets, not passes. *)
Lemma powerLoop_stuck (e : jsstring) :
  includes (ch "^") e = true ->
  replacePower e = e ->
  (10 <? splitLength (ch "^") e)%nat = false ->
  forall fuel hasPower, powerLoop fuel e hasPower = Spin.
Proof.
  intros Hinc Hfix Hfew fuel.
  induction fuel as [|fuel IH]; intros hasPower; cbn [powerLoop]; rewrite Hinc.
  - reflexivity.
  - cbv zeta. rewrite Hfix, Hinc, Hfew. cbn [negb]. apply IH.
Qed.

(** More fuel does not change a result. *)
Lemma powerLoop_more_fuel (fuel extra : nat) (e : jsstring) (hasPower : bool) :
  powerLoop fuel e hasPower <> Spin ->
  powerLoop (fuel + extra) e hasPower = powerLoop fuel e hasPower.
Proof.
  revert e hasPower.
  induction fuel as [|fuel IH]; intros e hasPower; cbn [powerLoop Nat.add]; cbv zeta.
  - destruct (includes (ch "^") e) eqn:Hinc.
    + intros H; contradiction H; reflexivity.
    + intros _. destruct extra; cbn [powerLoop]; rewrite Hinc; reflexivity.
  - destruct (includes (ch "^") e); [|reflexivity].
    destruct (negb (includes (ch "^") (replacePower e))); [reflexivity|].
    destruct (10 <? splitLength (ch "^") (replacePower e))%nat; [reflexivity|].
    apply IH.
Qed.

Lemma sanitize_unfold (fuel : nat) (expression : jsstring) :
  sanitize fuel expression =
  if isEmptyInput expression then Stop (Message errEmptyExpression)
  else
    match powerLoop fuel (normalize expression) false with
    | Spin => Spin
    | Stop v => Stop v
    | Go (e, hasPower) =>
        if negb hasPower && negb (originalPattern (removeWhiteSpace e))
        then Stop (Message errInvalidCharacters)
        else if hasPower && negb (withMathPow e)
        then Stop (Message errInvalidPowerExpression)
        else
          match parenLoop 0 e with
          | None => Stop (Message errUnmatchedParens)
          | Some parenCount =>
              if negb (parenCount =? 0)%Z
              then Stop (Message errUnmatchedParens)
              else Go e
          end
    end.
Proof. reflexivity. Qed.

Lemma sanitize_more_fuel (fuel extra : nat) (expression : jsstring) :
  sanitize fuel expression <> Spin ->
  sanitize (fuel + extra) expression = sanitize fuel expression.
Proof.
  rewrite !sanitize_unfold.
  destruct (isEmptyInput expression); [reflexivity|].
  intros H. rewrite powerLoop_more_fuel; [reflexivity|].
  intros Hspin. rewrite Hspin in H. apply H. reflexivity.
Qed.

Lemma evaluate_more_fuel runFunction (fuel extra : nat) (expression : jsstring)
  (r : JsResult) :
  evaluate runFunction fuel expression = Some r ->
  evaluate runFunction (fuel + extra) expression = Some r.
Proof.
  unfold evaluate. intros H.
  rewrite sanitize_more_fuel; [exact H|].
  intros Hspin. rewrite Hspin in H. discriminate H.
Qed.

(** A text without a caret never enters the loop. *)
Lemma sanitize_without_caret (fuel : nat) (expression : jsstring) :
  includes (ch "^") (normalize expression) = false ->
  sanitize fuel expression = sanitize 0 expression.
Proof.
  intros H. rewrite !sanitize_unfold.
  rewrite !(powerLoop_without_caret _ _ _ H). reflexivity.
Qed.

Lemma evaluate_without_caret runFunction (fuel : nat) (expression : jsstring) :
  includes (ch "^") (normalize expression) = false ->
  evaluate runFunction fuel expression = evaluate runFunction 0 expression.
Proof.
  intros H. unfold evaluate. rewrite (sanitize_without_caret fuel _ H).
  reflexivity.
Qed.

(** C1, at the input ["2^(3)"]: the exponent is not a plain number, the
    pattern matches nowhere, one caret remains and the test of l.37 lets the
    loop go on: no amount of fuel makes [evaluate] return, whatever the
    engine. The loop is not bounded by ten passes. *)
Theorem evaluate_power_loop_never_returns :
  forall runFunction fuel,
    evaluate runFunction fuel (str "2^(3)") = None.
Proof.
  intros runFunction fuel. unfold evaluate.
  rewrite sanitize_unfold.
  replace (isEmptyInput (str "2^(3)")) with false by (vm_compute; reflexivity).
  replace (normalize (str "2^(3)")) with (str "2^(3)") by (vm_compute; reflexivity).
  rewrite powerLoop_stuck; [reflexivity| | |]; vm_compute; reflexivity.
Qed.

(** The same happens when the exponent is still missing, and when it is
    negative. *)
Lemma evaluate_power_loop_other_inputs :
  forall runFunction fuel,
    evaluate runFunction fuel (str "2^") = None
    /\ evaluate runFunction fuel (str "2^-1") = None.
Proof.
  intros runFunction fuel. unfold evaluate. split.
  - rewrite sanitize_unfold.
    replace (isEmptyInput (str "2^")) with false by (vm_compute; reflexivity).
    replace (normalize (str "2^")) with (str "2^") by (vm_compute; reflexivity).
    rewrite powerLoop_stuck; [reflexivity| | |]; vm_compute; reflexivity.
  - rewrite sanitize_unfold.
    replace (isEmptyInput (str "2^-1")) with false by (vm_compute; reflexivity).
    replace (normalize (str "2^-1")) with (str "2^-1") by (vm_compute; reflexivity).
    rewrite powerLoop_stuck; [reflexivity| | |]; vm_compute; reflexivity.
Qed.

(** The bound of l.37 does stop the loop when ten carets or more are left
    after a pass, and a power of two plain numbers is rewritten in one
    pass. *)
Lemma power_loop_examples :
  forall runFunction fuel,
    evaluate runFunction (S fuel) (str "^^^^^^^^^^") = Some (Message errTooManyPowerOps)
    /\ sanitize (S fuel) (str "2^3") = Go (str "Math.pow(2,3)")
    /\ sanitize (S (S fuel)) (str "(2^3)^2") = Go (str "Math.pow((Math.pow(2,3)),2)").
Proof.
  intros runFunction fuel. split; [|split].
  - change (S fuel) with (1 + fuel)%nat. apply evaluate_more_fuel. reflexivity.
  - change (S fuel) with (1 + fuel)%nat. rewrite sanitize_more_fuel; [reflexivity|].
    vm_compute. discriminate.
  - change (S (S fuel)) with (2 + fuel)%nat. rewrite sanitize_more_fuel; [reflexivity|].
    vm_compute. discriminate.
Qed.

(** The other examples of the specification that need no power. *)
Lemma evaluate_examples :
  forall fuel,
    (forall runFunction,
        evaluate runFunction fuel [] = Some (Message errEmptyExpression))
    /\ (forall runFunction,
          evaluate runFunction fuel (str "(2+3") = Some (Message errUnmatchedParens))
    /\ evaluate Arith.engine fuel (str "2+2") = Some (Number 4)
    /\ evaluate Arith.engine fuel (str " 2 * (3 + 4) ") = Some (Number 14).
Proof.
  intros fuel. split; [|split; [|split]]; intros;
    rewrite evaluate_without_caret by (vm_compute; reflexivity);
    vm_compute; reflexivity.
Qed.

(** ** The division check *)

Lemma trimStart_split (s : jsstring) :
  exists ws, s = ws ++ trimStart s /\ forallb isWhiteSpace ws = true.
Proof.
  induction s as [|c t [ws [Heq Hws]]].
  - exists []. split; reflexivity.
  - simpl. destruct (isWhiteSpace c) eqn:Hc.
    + exists (c :: ws). simpl. rewrite Hc, Hws. split; [f_equal; exact Heq | reflexivity].
    + exists []. split; reflexivity.
Qed.

Lemma trimStart_skips (ws rest : jsstring) :
  forallb isWhiteSpace ws = true -> trimStart (ws ++ rest) = trimStart rest.
Proof.
  induction ws as [|c ws IH]; simpl; [reflexivity|].
  intros H. apply andb_true_iff in H. destruct H as [Hc Hws].
  rewrite Hc. apply IH, Hws.
Qed.

Lemma zeroFollows_spec (s : jsstring) :
  zeroFollows s = true <->
  exists ws post,
    s = ws ++ ch "0" :: post
    /\ forallb isWhiteSpace ws = true
    /\ startsWithChar (ch ".") post = false.
Proof.
  unfold zeroFollows. split.
  - destruct (trimStart_split s) as [ws [Heq Hws]].
    destruct (trimStart s) as [|z rest]; [discriminate|].
    intros H. apply andb_true_iff in H. destruct H as [Hz Hdot].
    apply N.eqb_eq in Hz. subst z.
    exists ws, rest. split; [exact Heq|]. split; [exact Hws|].
    destruct rest as [|d rest']; [reflexivity|].
    cbn [startsWithChar]. rewrite N.eqb_sym. apply negb_true_iff, Hdot.
  - intros [ws [post [-> [Hws Hdot]]]].
    rewrite (trimStart_skips _ _ Hws).
    change (trimStart (ch "0" :: post)) with (ch "0" :: post).
    cbv beta iota. rewrite N.eqb_refl. cbn [andb].
    destruct post as [|d rest']; [reflexivity|].
    cbn [startsWithChar] in Hdot.
    rewrite N.eqb_sym. apply negb_true_iff, Hdot.
Qed.

(** The test of l.64 is the search for that pattern. *)
Lemma divisionByZeroTest_spec (e : jsstring) :
  divisionByZeroTest e = true <-> DivisionPattern e.
Proof.
  unfold DivisionPattern. split.
  - induction e as [|c t IH]; cbn [divisionByZeroTest]; [discriminate|].
    intros H. apply orb_true_iff in H. destruct H as [H|H].
    + apply andb_true_iff in H. destruct H as [Hc Hz].
      apply N.eqb_eq in Hc. subst c.
      apply zeroFollows_spec in Hz. destruct Hz as [ws [post [-> [Hws Hdot]]]].
      exists [], ws, post. auto.
    + destruct (IH H) as [pre [ws [post [-> [Hws Hdot]]]]].
      exists (c :: pre), ws, post. auto.
  - intros [pre [ws [post [-> [Hws Hdot]]]]].
    induction pre as [|c pre IH]; cbn [app divisionByZeroTest].
    + apply orb_true_iff. left. rewrite N.eqb_refl. cbn [andb].
      apply zeroFollows_spec. exists ws, post. auto.
    + rewrite IH. apply orb_true_r.
Qed.

(** What the execution step returns is the division message only when the
    division check fired. *)
Lemma execute_division_message runFunction (e : jsstring) :
  execute runFunction e = Message errDivisionByZero <->
  divisionByZeroTest e = true.
Proof.
  unfold execute. destruct (divisionByZeroTest e).
  - split; reflexivity.
  - split; [|discriminate].
    destruct (runFunction (functionBody e)) as [result|].
    + destruct (toNumber result) as [r|].
      * destruct (negb (PrimFloat.is_finite r)); intros H;
          [vm_compute in H|]; discriminate H.
      * intros H; vm_compute in H; discriminate H.
    + intros H; vm_compute in H; discriminate H.
Qed.

(** C2, as stated, fails both ways. ["5/01"] reaches the division check, has
    no [/0] followed by a non-digit, and is rejected as a division by zero;
    ["5/0.5"] reaches the check, has [/0] followed by the non-digit [.], and
    is not rejected. *)
Lemma division_check_is_not_the_digit_rule :
  (sanitize 0 (str "5/01") = Go (str "5/01")
   /\ SpecWords.slashZeroNotDigit (str "5/01") = false
   /\ evaluate Arith.engine 0 (str "5/01") = Some (Message errDivisionByZero))
  /\ (sanitize 0 (str "5/0.5") = Go (str "5/0.5")
      /\ SpecWords.slashZeroNotDigit (str "5/0.5") = true
      /\ evaluate Arith.engine 0 (str "5/0.5") = Some (Number 10)).
Proof. vm_compute. repeat split; reflexivity. Qed.

(** C2, amended: for every input that reaches the division check with the
    text [e], [evaluate] returns the division-by-zero message exactly when
    [e] contains a slash, then optional white space, then a zero that is not
    followed by a decimal point. *)
Theorem division_check_iff :
  forall runFunction fuel input e,
    sanitize fuel input = Go e ->
    (evaluate runFunction fuel input = Some (Message errDivisionByZero)
     <-> DivisionPattern e).
Proof.
  intros runFunction fuel input e Hgo.
  unfold evaluate. rewrite Hgo.
  rewrite <- divisionByZeroTest_spec, <- (execute_division_message runFunction).
  split; [intros H; injection H; auto | intros ->; reflexivity].
Qed.

Lemma division_check_iff_witness :
  sanitize 0 (str "5/01") = Go (str "5/01")
  /\ (evaluate Arith.engine 0 (str "5/01") = Some (Message errDivisionByZero)
      <-> DivisionPattern (str "5/01")).
Proof.
  split; [reflexivity|].
  apply (division_check_iff Arith.engine 0 (str "5/01") (str "5/01")).
  reflexivity.
Defined.

(** ** The examples of the specification *)

(** C6: [evaluate("5/0")] is the division-by-zero error, with any engine;
    [evaluate("5/0.5")] is the number 10 as soon as the engine divides the
    two literals as IEEE 754 says. *)
Theorem evaluate_division_examples :
  forall runFunction fuel,
    evaluate runFunction fuel (str "5/0") = Some (Message errDivisionByZero)
    /\ (runFunction (functionBody (str "5/0.5")) = Returned (VNumber (5 / 0.5))
        -> evaluate runFunction fuel (str "5/0.5") = Some (Number 10)).
Proof.
  intros runFunction fuel. split.
  - rewrite evaluate_without_caret by (vm_compute; reflexivity).
    reflexivity.
  - intros Hrun.
    rewrite evaluate_without_caret by (vm_compute; reflexivity).
    unfold evaluate.
    replace (sanitize 0 (str "5/0.5")) with (Go (str "5/0.5"))
      by (vm_compute; reflexivity).
    unfold execute.
    replace (divisionByZeroTest (str "5/0.5")) with false
      by (vm_compute; reflexivity).
    rewrite Hrun. vm_compute. reflexivity.
Qed.

Lemma evaluate_division_examples_witness :
  evaluate Arith.engine 0 (str "5/0") = Some (Message errDivisionByZero)
  /\ evaluate Arith.engine 0 (str "5/0.5") = Some (Number 10).
Proof.
  destruct (evaluate_division_examples Arith.engine 0) as [Hzero Hhalf].
  split; [exact Hzero|].
  apply Hhalf. vm_compute. reflexivity.
Defined.

(** ** The allow-list and the error messages *)

Ltac in_list := simpl; repeat (first [left; reflexivity | right]).

Lemma filter_all (p : N -> bool) (s : jsstring) :
  forallb p s = true -> filter p s = s.
Proof.
  induction s as [|c t IH]; simpl; [reflexivity|].
  intros H. apply andb_true_iff in H. destruct H as [Hc Ht].
  rewrite Hc, (IH Ht). reflexivity.
Qed.

Lemma forallb_filter (p : N -> bool) (s : jsstring) :
  forallb p (filter p s) = true.
Proof.
  induction s as [|c t IH]; simpl; [reflexivity|].
  destruct (p c) eqn:Hc; simpl; [rewrite Hc|]; exact IH.
Qed.

Lemma replaceGlyph_step (a b : N) (rest : jsstring) :
  replaceGlyph (a :: b :: rest) =
  if (a =? 0xCF)%N && (b =? 0x20AC)%N
  then Math.PI_toString ++ replaceGlyph rest
  else a :: replaceGlyph (b :: rest).
Proof. reflexivity. Qed.

Lemma replacePi_step (a b : N) (rest : jsstring) :
  replacePi (a :: b :: rest) =
  if ((a =? ch "p") || (a =? ch "P"))%N && ((b =? ch "i") || (b =? ch "I"))%N
  then Math.PI_toString ++ replacePi rest
  else a :: replacePi (b :: rest).
Proof. reflexivity. Qed.

Section ReplacePreserves.

Variable p : N -> bool.
Hypothesis p_PI : forallb p Math.PI_toString = true.

Lemma replaceGlyph_forallb (s : jsstring) :
  forallb p s = true -> forallb p (replaceGlyph s) = true.
Proof.
  assert (H : forall n s, (List.length s <= n)%nat ->
                forallb p s = true -> forallb p (replaceGlyph s) = true).
  { clear s. induction n as [|n IH]; intros [|a [|b rest]] Hlen Hs;
      try reflexivity; try exact Hs; simpl in Hlen; try lia.
    rewrite replaceGlyph_step.
    cbn [forallb] in Hs.
    apply andb_true_iff in Hs. destruct Hs as [Ha Hs].
    destruct ((a =? 0xCF)%N && (b =? 0x20AC)%N).
    - rewrite forallb_app, p_PI. apply IH; [lia|].
      apply andb_true_iff in Hs. apply Hs.
    - cbn [forallb]. rewrite Ha. apply IH; [simpl; lia | exact Hs]. }
  apply (H (List.length s)). lia.
Qed.

Lemma replacePi_forallb (s : jsstring) :
  forallb p s = true -> forallb p (replacePi s) = true.
Proof.
  assert (H : forall n s, (List.length s <= n)%nat ->
                forallb p s = true -> forallb p (replacePi s) = true).
  { clear s. induction n as [|n IH]; intros [|a [|b rest]] Hlen Hs;
      try reflexivity; try exact Hs; simpl in Hlen; try lia.
    rewrite replacePi_step.
    cbn [forallb] in Hs.
    apply andb_true_iff in Hs. destruct Hs as [Ha Hs].
    destruct (((a =? ch "p") || (a =? ch "P"))%N && ((b =? ch "i") || (b =? ch "I"))%N).
    - rewrite forallb_app, p_PI. apply IH; [lia|].
      apply andb_true_iff in Hs. apply Hs.
    - cbn [forallb]. rewrite Ha. apply IH; [simpl; lia | exact Hs]. }
  apply (H (List.length s)). lia.
Qed.

End ReplacePreserves.

(** The normalised text has no white space left, so that stripping it again
    at l.47 changes nothing. *)
Lemma removeWhiteSpace_normalize (expression : jsstring) :
  removeWhiteSpace (normalize expression) = normalize expression.
Proof.
  unfold removeWhiteSpace at 1. apply filter_all.
  unfold normalize.
  apply replacePi_forallb; [vm_compute; reflexivity|].
  apply replaceGlyph_forallb; [vm_compute; reflexivity|].
  apply forallb_filter.
Qed.

Lemma forallb_outside (p : N -> bool) (s : jsstring) :
  (exists c, In c s /\ p c = false) -> forallb p s = false.
Proof.
  intros [c [Hin Hc]]. destruct (forallb p s) eqn:H; [|reflexivity].
  rewrite forallb_forall in H. rewrite (H c Hin) in Hc. discriminate Hc.
Qed.

Lemma powerLoop_stop (fuel : nat) (e : jsstring) (hasPower : bool) (v : JsResult) :
  powerLoop fuel e hasPower = Stop v -> v = Message errTooManyPowerOps.
Proof.
  revert e hasPower.
  induction fuel as [|fuel IH]; intros e hasPower; cbn [powerLoop]; cbv zeta;
    destruct (includes (ch "^") e); try discriminate.
  destruct (negb (includes (ch "^") (replacePower e))); [discriminate|].
  destruct (10 <? splitLength (ch "^") (replacePower e))%nat.
  - intros H; injection H; auto.
  - apply IH.
Qed.

Lemma execute_messages runFunction (e m : jsstring) :
  execute runFunction e = Message m -> In m taxonomy.
Proof.
  unfold execute.
  destruct (divisionByZeroTest e); [intros H; injection H as <-; in_list|].
  destruct (runFunction (functionBody e)) as [result|];
    [|intros H; injection H as <-; in_list].
  destruct (toNumber result) as [r|]; [|intros H; injection H as <-; in_list].
  destruct (negb (PrimFloat.is_finite r)); [|discriminate].
  intros H; injection H as <-; in_list.
Qed.

Lemma evaluate_messages runFunction (fuel : nat) (input m : jsstring) :
  evaluate runFunction fuel input = Some (Message m) -> In m errorMessages.
Proof.
  unfold evaluate. rewrite sanitize_unfold.
  destruct (isEmptyInput input); [intros H; injection H as <-; in_list|].
  destruct (powerLoop fuel (normalize input) false) as [[e hasPower]|v|] eqn:Hloop;
    [| |discriminate].
  - destruct (negb hasPower && negb (originalPattern (removeWhiteSpace e)));
      [intros H; injection H as <-; in_list|].
    destruct (hasPower && negb (withMathPow e));
      [intros H; injection H as <-; in_list|].
    destruct (parenLoop 0 e) as [parenCount|];
      [|intros H; injection H as <-; in_list].
    destruct (negb (parenCount =? 0)%Z);
      [intros H; injection H as <-; in_list|].
    intros H. injection H as H. apply execute_messages in H.
    apply in_or_app. left. exact H.
  - apply powerLoop_stop in Hloop. subst v.
    intros H; injection H as <-; in_list.
Qed.

(** C3, as stated, fails: ["2^3+x"] contains [x], which is in none of the
    two allow-lists; after the rewriting, l.51 returns a message that is
    neither the invalid-characters one nor one of the ten kinds. *)
Lemma power_rewrite_error_is_outside_taxonomy :
  existsb (fun c => negb (inMathPowClass c)) (str "2^3+x") = true
  /\ evaluate Arith.engine 1 (str "2^3+x") = Some (Message errInvalidPowerExpression)
  /\ errInvalidPowerExpression <> errInvalidCharacters
  /\ ~ In errInvalidPowerExpression taxonomy.
Proof.
  split; [vm_compute; reflexivity|].
  split; [vm_compute; reflexivity|].
  split; [intros H; vm_compute in H; discriminate H|].
  intros H. simpl in H.
  repeat (destruct H as [H|H]; [vm_compute in H; discriminate H|]).
  exact H.
Qed.

(** C3, amended. With [t] the input once white space is stripped and the
    constant tokens substituted: (a) when the input is not blank and [t] has
    no caret, a character of [t] outside the list of l.44 (digits,
    [+ - * / ( ) .] and the two code units of the constant glyph) gives the
    invalid-characters message; (b) when the rewriting ended with the text
    [e], a character of [e] outside the list of l.45 gives the message of
    l.51, "Invalid power expression"; (c) every message returned by
    [evaluate], [sqrt], [power] or [percentage] is one of the ten kinds or
    that eleventh message. *)
Theorem allow_list_and_messages :
  forall runFunction Math_pow fuel input,
    (isEmptyInput input = false ->
     includes (ch "^") (normalize input) = false ->
     (exists c, In c (normalize input) /\ inOriginalClass c = false) ->
     evaluate runFunction fuel input = Some (Message errInvalidCharacters))
    /\ (forall e,
          isEmptyInput input = false ->
          powerLoop fuel (normalize input) false = Go (e, true) ->
          (exists c, In c e /\ inMathPowClass c = false) ->
          evaluate runFunction fuel input = Some (Message errInvalidPowerExpression))
    /\ (forall m,
          evaluate runFunction fuel input = Some (Message m) -> In m errorMessages)
    /\ (forall m,
          percentage runFunction fuel input = Some (Message m) -> In m errorMessages)
    /\ (forall x m, sqrt x = Message m -> In m errorMessages)
    /\ (forall b x m, power Math_pow b x = Message m -> In m errorMessages).
Proof.
  intros runFunction Math_pow fuel input.
  split; [|split; [|split; [|split; [|split]]]].
  - intros Hne Hcaret Hout. unfold evaluate. rewrite sanitize_unfold, Hne.
    rewrite (powerLoop_without_caret _ _ _ Hcaret).
    rewrite removeWhiteSpace_normalize.
    unfold originalPattern, testClass.
    rewrite (forallb_outside _ _ Hout), andb_false_r. reflexivity.
  - intros e Hne Hloop Hout. unfold evaluate. rewrite sanitize_unfold, Hne, Hloop.
    unfold withMathPow, testClass.
    rewrite (forallb_outside _ _ Hout), andb_false_r. reflexivity.
  - apply evaluate_messages.
  - intros m. unfold percentage.
    destruct (evaluate runFunction fuel input) as [[v|m']|] eqn:Hev;
      try discriminate.
    intros H. injection H as <-. apply (evaluate_messages _ _ _ _ Hev).
  - intros x m. unfold sqrt. destruct (x <? 0)%float; [|discriminate].
    intros H; injection H as <-; in_list.
  - intros b x m. unfold power.
    destruct (negb (PrimFloat.is_finite (Math_pow b x))); [|discriminate].
    intros H; injection H as <-; in_list.
Qed.

Lemma allow_list_and_messages_witness :
  evaluate Arith.engine 0 (str "2+x") = Some (Message errInvalidCharacters)
  /\ evaluate Arith.engine 1 (str "2^3+x") = Some (Message errInvalidPowerExpression)
  /\ In errDivisionByZero errorMessages
  /\ In errNegativeSqrt errorMessages
  /\ In errInvalidPower errorMessages.
Proof.
  destruct (allow_list_and_messages Arith.engine (fun b _ => b) 0 (str "2+x"))
    as [Ha _].
  destruct (allow_list_and_messages Arith.engine (fun b _ => b) 1 (str "2^3+x"))
    as [_ [Hb _]].
  destruct (allow_list_and_messages Arith.engine (fun b _ => b) 0 (str "5/0"))
    as [_ [_ [Hc [Hd [He Hf]]]]].
  split; [|split; [|split; [|split]]].
  - apply Ha; [reflexivity | reflexivity |].
    exists (ch "x"). split; [vm_compute; in_list | reflexivity].
  - apply (Hb (str "Math.pow(2,3)+x")); [reflexivity | reflexivity |].
    exists (ch "x"). split; [vm_compute; in_list | reflexivity].
  - apply Hd. reflexivity.
  - apply (He (-1)%float). reflexivity.
  - apply (Hf infinity 1%float). reflexivity.
Defined.

(** ** The operator handler *)

Lemma showsError_nonempty (display : jsstring) :
  showsError display = true -> JsString.eqb display [] = false.
Proof. destruct display; [discriminate | reflexivity]. Qed.

(** On a display that shows an error, whose last character is not an
    operator, or when the minus sign is entered, the value entered takes the
    place of the error. *)
Lemma handleOperatorClick_on_error (value display : jsstring) :
  showsError display = true ->
  testOperator (sliceLast display) = false \/ value = str "-" ->
  handleOperatorClick value display = value.
Proof.
  intros Herr Hlast. unfold handleOperatorClick.
  rewrite (showsError_nonempty _ Herr), Herr. cbn [andb].
  replace (testOperator (sliceLast display) && negb (JsString.eqb value (str "-")))
    with false.
  - reflexivity.
  - destruct Hlast as [-> | ->]; [reflexivity|].
    rewrite jsstring_eqb_refl. symmetry. apply andb_false_r.
Qed.

(** C10: when the display shows an error marker, an operator click leaves
    exactly that operator on the display, for each of [+ - * /]: the test of
    l.339 reads the content from before the clearing, which is not empty. *)
Theorem operator_replaces_error_marker :
  forall display value,
    In display errorMarkers ->
    In value operators ->
    handleOperatorClick value display = value.
Proof.
  intros display value Hd _.
  apply handleOperatorClick_on_error.
  - simpl in Hd.
    repeat (destruct Hd as [Hd|Hd]; [subst display; reflexivity|]).
    contradiction Hd.
  - left. simpl in Hd.
    repeat (destruct Hd as [Hd|Hd]; [subst display; reflexivity|]).
    contradiction Hd.
Qed.

Lemma operator_replaces_error_marker_witness :
  handleOperatorClick (str "*") errDivisionByZero = str "*".
Proof.
  apply operator_replaces_error_marker; in_list.
Defined.

(** C4, as stated, fails: after an operator, the minus sign does not
    replace it, it is appended. *)
Lemma minus_is_appended_after_operator :
  handleOperatorClick (str "-") (str "5+") = str "5+-"
  /\ handleOperatorClick (str "-") (str "5+") <> str "5-".
Proof.
  split; [reflexivity | intros H; vm_compute in H; discriminate H].
Qed.

(** C4, amended: on a display that shows no error, an operator is appended,
    except that (a) on an empty display only the minus sign is accepted, and
    (b) when the last character is an operator and the new one is not the
    minus sign, the new one replaces it; the minus sign is appended also
    after an operator. *)
Theorem handleOperatorClick_cases :
  forall display value,
    In value operators ->
    showsError display = false ->
    (display = [] ->
     handleOperatorClick value display
     = if JsString.eqb value (str "-") then str "-" else [])
    /\ (display <> [] ->
        testOperator (sliceLast display) = true ->
        value <> str "-" ->
        handleOperatorClick value display = sliceInit display ++ value)
    /\ (display <> [] ->
        testOperator (sliceLast display) = false \/ value = str "-" ->
        handleOperatorClick value display = display ++ value).
Proof.
  intros display value _ Herr.
  unfold handleOperatorClick, appendToDisplay.
  rewrite Herr. cbv beta iota zeta. rewrite Herr.
  split; [|split].
  - intros ->.
    destruct (JsString.eqb value (str "-")) eqn:Hv; [|reflexivity].
    apply jsstring_eqb_eq in Hv. subst value. reflexivity.
  - intros Hne Hlast Hv.
    apply jsstring_eqb_neq in Hne, Hv. rewrite Hne, Hlast, Hv. reflexivity.
  - intros Hne Hlast.
    apply jsstring_eqb_neq in Hne. rewrite Hne. cbn [andb].
    destruct Hlast as [-> | ->]; [reflexivity|].
    rewrite jsstring_eqb_refl, andb_false_r. reflexivity.
Qed.

Lemma handleOperatorClick_cases_witness :
  handleOperatorClick (str "*") [] = []
  /\ handleOperatorClick (str "-") [] = str "-"
  /\ handleOperatorClick (str "*") (str "5+") = str "5*"
  /\ handleOperatorClick (str "-") (str "5+") = str "5+-"
  /\ handleOperatorClick (str "+") (str "5") = str "5+".
Proof.
  assert (Hstar : In (str "*") operators) by in_list.
  assert (Hminus : In (str "-") operators) by in_list.
  assert (Hplus : In (str "+") operators) by in_list.
  destruct (handleOperatorClick_cases [] (str "*") Hstar eq_refl) as [H1 _].
  destruct (handleOperatorClick_cases [] (str "-") Hminus eq_refl) as [H2 _].
  destruct (handleOperatorClick_cases (str "5+") (str "*") Hstar eq_refl)
    as [_ [H3 _]].
  destruct (handleOperatorClick_cases (str "5+") (str "-") Hminus eq_refl)
    as [_ [_ H4]].
  destruct (handleOperatorClick_cases (str "5") (str "+") Hplus eq_refl)
    as [_ [_ H5]].
  split; [|split; [|split; [|split]]].
  - apply H1. reflexivity.
  - apply H2. reflexivity.
  - apply H3; [discriminate | reflexivity | discriminate].
  - apply H4; [discriminate | right; reflexivity].
  - apply H5; [discriminate | left; reflexivity].
Defined.

(** ** The rounding of the result *)

(** C5: the text [tenToThe301] is a valid expression and denotes the
    integer 10^301, which is finite and which rounding to 8 decimal places
    leaves as it is; the engine returns a finite number for it; and
    [evaluate] returns the number infinity, where a result that is not
    finite is meant to be the invalid-result message (l.74-76): l.74 tests
    the raw value, and l.79 multiplies it by 10^8 only afterwards. *)
Lemma rounding_overflows_to_infinity :
  Arith.literal tenToThe301 = Some ((10 ^ 301)%Z, O, [])
  /\ (exists r, Arith.value (functionBody tenToThe301) = Some r
                /\ PrimFloat.is_finite r = true)
  /\ evaluate Arith.engine 0 tenToThe301 = Some (Number infinity)
  /\ PrimFloat.is_finite infinity = false.
Proof.
  split; [vm_compute; reflexivity|].
  split; [eexists; split; vm_compute; reflexivity|].
  split; vm_compute; reflexivity.
Qed.

(** ** The scientific operations *)

(** C9: [percentage] is [evaluate] divided by 100 on a number, and the very
    message of [evaluate] on an error; it returns when [evaluate] does. *)
Theorem percentage_follows_evaluate :
  forall runFunction fuel e,
    (forall v, evaluate runFunction fuel e = Some (Number v) ->
               percentage runFunction fuel e = Some (Number (v / 100)%float))
    /\ (forall m, evaluate runFunction fuel e = Some (Message m) ->
                  percentage runFunction fuel e = Some (Message m))
    /\ (evaluate runFunction fuel e = None ->
        percentage runFunction fuel e = None).
Proof.
  intros runFunction fuel e. unfold percentage.
  split; [|split].
  - intros v ->. reflexivity.
  - intros m ->. reflexivity.
  - intros ->. reflexivity.
Qed.

Lemma percentage_follows_evaluate_witness :
  percentage Arith.engine 0 (str "5/0.5") = Some (Number (10 / 100)%float)
  /\ percentage Arith.engine 0 (str "5/0") = Some (Message errDivisionByZero)
  /\ percentage Arith.engine 7 (str "2^(3)") = None.
Proof.
  destruct (percentage_follows_evaluate Arith.engine 0 (str "5/0.5")) as [Hn _].
  destruct (percentage_follows_evaluate Arith.engine 0 (str "5/0")) as [_ [Hm _]].
  destruct (percentage_follows_evaluate Arith.engine 7 (str "2^(3)")) as [_ [_ Hs]].
  split; [|split].
  - apply Hn. vm_compute. reflexivity.
  - apply Hm. vm_compute. reflexivity.
  - apply Hs. vm_compute. reflexivity.
Defined.

(** *** The square root *)

Section RoundingSign.

Lemma shr_1_nonneg (mrs : shr_record) :
  nonnegRecord mrs -> nonnegRecord (shr_1 mrs).
Proof.
  unfold nonnegRecord. destruct mrs as [m r s]. simpl.
  destruct m as [|[p|p|]|[p|p|]]; simpl; intros H; lia.
Qed.

Lemma iter_pos_shr_1_nonneg (p : positive) (mrs : shr_record) :
  nonnegRecord mrs -> nonnegRecord (iter_pos shr_1 p mrs).
Proof.
  revert mrs. induction p as [p IH|p IH|]; intros mrs H; simpl.
  - apply IH, IH, shr_1_nonneg, H.
  - apply IH, IH, H.
  - apply shr_1_nonneg, H.
Qed.

Lemma shr_fexp_nonneg (m e : Z) (l : location) :
  (0 <= m)%Z -> nonnegRecord (fst (shr_fexp prec emax m e l)).
Proof.
  intros H. unfold shr_fexp, shr.
  assert (H0 : nonnegRecord (shr_record_of_loc m l)).
  { unfold nonnegRecord. destruct l as [|[]]; exact H. }
  destruct (fexp prec emax (Zdigits2 m + e) - e)%Z; simpl; auto.
  apply iter_pos_shr_1_nonneg, H0.
Qed.

Lemma round_nearest_even_nonneg (m : Z) (l : location) :
  (0 <= m)%Z -> (0 <= round_nearest_even m l)%Z.
Proof.
  intros H. unfold round_nearest_even.
  destruct l as [|[]]; try exact H; [destruct (Z.even m)|]; lia.
Qed.

Lemma binary_round_aux_nonneg (m e : Z) (l : location) :
  (0 <= m)%Z ->
  SFleb (S754_zero false) (binary_round_aux prec emax false m e l) = true.
Proof.
  intros H. unfold binary_round_aux.
  pose proof (shr_fexp_nonneg m e l H) as H1.
  destruct (shr_fexp prec emax m e l) as [mrs' e'].
  cbn [fst] in H1.
  pose proof (shr_fexp_nonneg _ e' loc_Exact
                (round_nearest_even_nonneg _ (loc_of_shr_record mrs') H1)) as H2.
  destruct (shr_fexp prec emax
              (round_nearest_even (shr_m mrs') (loc_of_shr_record mrs')) e' loc_Exact)
    as [mrs'' e''].
  cbn [fst] in H2. unfold nonnegRecord in H2.
  destruct (shr_m mrs'') as [|p|p]; [reflexivity| |lia].
  destruct (e'' <=? emax - prec)%Z; reflexivity.
Qed.

(** The IEEE square root of a number that is not negative is not
    negative. *)
Lemma sqrt_nonneg (x : float) :
  (0 <=? x)%float = true -> (0 <=? PrimFloat.sqrt x)%float = true.
Proof.
  rewrite !leb_spec, sqrt_spec.
  change (Prim2SF 0) with (S754_zero false).
  unfold SF64sqrt, SFsqrt.
  destruct (Prim2SF x) as [s|s| |s m e]; try (intros H; exact H).
  - destruct s; intros H; exact H.
  - destruct s; [intros H; discriminate H|]. intros _.
    unfold SFsqrt_core_binary.
    destruct (Z.sqrtrem _) as [q r] eqn:Hqr.
    apply binary_round_aux_nonneg.
    match type of Hqr with
    | Z.sqrtrem ?n = _ => pose proof (Z.sqrtrem_sqrt n) as Hq
    end.
    rewrite Hqr in Hq. cbn [fst] in Hq. rewrite Hq. apply Z.sqrt_nonneg.
Qed.

End RoundingSign.

Lemma not_negative (x : float) :
  (0 <=? x)%float = true -> (x <? 0)%float = false.
Proof.
  rewrite leb_spec, ltb_spec.
  change (Prim2SF 0) with (S754_zero false).
  unfold SFleb, SFltb.
  destruct (Prim2SF x) as [s|s| |s m e]; try destruct s; simpl;
    intros H; try reflexivity; discriminate H.
Qed.

(** ** The history *)

Import CalculatorState.

Lemma removelast_length {A : Type} (l : list A) :
  List.length (removelast l) = pred (List.length l).
Proof.
  induction l as [|a [|b l] IH]; try reflexivity.
  change (removelast (a :: b :: l)) with (a :: removelast (b :: l)).
  cbn [List.length]. rewrite IH. reflexivity.
Qed.

(** One call of [addToHistory] keeps the history within [maxHistoryItems]. *)
Lemma addToHistory_bound (e : jsstring) (r : float) (now : Z) (this : t) :
  (List.length (history this) <= maxHistoryItems this)%nat ->
  (List.length (history (addToHistory e r now this)) <= maxHistoryItems this)%nat.
Proof.
  intros H. unfold addToHistory. cbn [history].
  destruct (maxHistoryItems this <? _)%nat eqn:Hfull.
  - rewrite removelast_length. cbn [List.length pred]. exact H.
  - apply Nat.ltb_ge in Hfull. exact Hfull.
Qed.

Lemma step_maxHistoryItems (this : t) (op : Op) :
  maxHistoryItems (step this op) = maxHistoryItems this.
Proof. destruct op; reflexivity. Qed.

Lemma step_bound (this : t) (op : Op) :
  (List.length (history this) <= maxHistoryItems this)%nat ->
  (List.length (history (step this op)) <= maxHistoryItems (step this op))%nat.
Proof.
  intros H. rewrite step_maxHistoryItems. destruct op as [e r now|].
  - apply addToHistory_bound, H.
  - apply Nat.le_0_l.
Qed.

Lemma run_invariant (ops : list Op) (this : t) :
  (List.length (history this) <= maxHistoryItems this)%nat ->
  (List.length (history (run ops this)) <= maxHistoryItems (run ops this))%nat
  /\ maxHistoryItems (run ops this) = maxHistoryItems this.
Proof.
  revert this. unfold run.
  induction ops as [|op ops IH]; intros this H; cbn [fold_left].
  - split; [exact H | reflexivity].
  - destruct (IH (step this op) (step_bound this op H)) as [Hlen Hmax].
    split; [exact Hlen|]. rewrite Hmax. apply step_maxHistoryItems.
Qed.

(** On a full history the new entry comes first and the last one goes. *)
Lemma addToHistory_full (e : jsstring) (r : float) (now : Z) (this : t) :
  List.length (history this) = maxHistoryItems this ->
  history (addToHistory e r now this)
  = removelast ({| expression := e; result := r; timestamp := now |} :: history this).
Proof.
  intros H. unfold addToHistory. cbn [history List.length].
  rewrite H. rewrite (proj2 (Nat.ltb_lt _ _) (Nat.lt_succ_diag_r _)).
  reflexivity.
Qed.

(** C7: after any sequence of [addToHistory] and [clearHistory] from the
    empty history, at most 10 entries are held; and [addToHistory] on a
    history of 10 entries puts the new entry first, keeps the nine most
    recent ones after it in their order, and drops the oldest. *)
Theorem history_never_exceeds_ten :
  forall ops,
    (List.length (history (run ops new)) <= 10)%nat
    /\ forall e r now,
         List.length (history (run ops new)) = 10%nat ->
         history (addToHistory e r now (run ops new))
         = {| expression := e; result := r; timestamp := now |}
           :: removelast (history (run ops new))
         /\ List.length (history (addToHistory e r now (run ops new))) = 10%nat.
Proof.
  intros ops.
  destruct (run_invariant ops new (Nat.le_0_l _)) as [Hlen Hmax].
  change (maxHistoryItems new) with 10%nat in Hmax.
  rewrite Hmax in Hlen. split; [exact Hlen|].
  intros e r now Hfull.
  assert (Heq : List.length (history (run ops new)) = maxHistoryItems (run ops new))
    by (rewrite Hmax; exact Hfull).
  rewrite (addToHistory_full e r now _ Heq).
  destruct (history (run ops new)) as [|h hs] eqn:Hh; [discriminate Hfull|].
  change (removelast (?a :: h :: hs)) with (a :: removelast (h :: hs)).
  split; [reflexivity|].
  cbn [List.length]. rewrite removelast_length. exact Hfull.
Qed.

Lemma history_never_exceeds_ten_witness :
  List.length (history (run tenAdditions new)) = 10%nat
  /\ map timestamp (history (addToHistory (str "2+2") 4 10 (run tenAdditions new)))
     = [10; 9; 8; 7; 6; 5; 4; 3; 2; 1]%Z.
Proof.
  split; [reflexivity|].
  destruct (history_never_exceeds_ten tenAdditions) as [_ H].
  destruct (H (str "2+2") 4%float 10%Z eq_refl) as [-> _].
  reflexivity.
Defined.

(** * Further properties of the program *)

(** ** One pass of the power rewriting *)

Lemma carets_app (a b : jsstring) : carets (a ++ b) = (carets a + carets b)%nat.
Proof. unfold carets. rewrite filter_app, length_app. reflexivity. Qed.

Lemma carets_cons (c : N) (s : jsstring) :
  carets (c :: s) = ((if (ch "^" =? c)%N then 1 else 0) + carets s)%nat.
Proof. unfold carets. cbn [filter]. destruct (ch "^" =? c)%N; reflexivity. Qed.

Lemma includes_carets (s : jsstring) :
  includes (ch "^") s = false <-> carets s = 0%nat.
Proof.
  unfold includes. induction s as [|c s IH]; [split; reflexivity|].
  rewrite carets_cons. cbn [existsb].
  destruct (ch "^" =? c)%N; cbn [orb].
  - split; discriminate.
  - exact IH.
Qed.

Lemma spanDigits_app (s : jsstring) :
  s = fst (spanDigits s) ++ snd (spanDigits s)
  /\ forallb isDigit (fst (spanDigits s)) = true.
Proof.
  induction s as [|c t [IH1 IH2]]; [split; reflexivity|].
  cbn [spanDigits]. destruct (isDigit c) eqn:Hc.
  - destruct (spanDigits t) as [d r]. cbn [fst snd] in *.
    split; [cbn [app]; f_equal; exact IH1 | cbn [forallb]; rewrite Hc; exact IH2].
  - split; reflexivity.
Qed.

Lemma digits_no_caret (s : jsstring) :
  forallb isDigit s = true -> carets s = 0%nat.
Proof.
  induction s as [|c s IH]; [reflexivity|].
  cbn [forallb]. intros H. apply andb_true_iff in H. destruct H as [Hc Hs].
  rewrite carets_cons, (IH Hs).
  destruct (ch "^" =? c)%N eqn:Heq; [|reflexivity].
  apply N.eqb_eq in Heq. subst c. discriminate Hc.
Qed.

(** What [matchNumber] matches is at the head of the text and has no
    caret. *)
Lemma matchNumber_app (s m r : jsstring) :
  matchNumber s = Some (m, r) -> s = m ++ r /\ carets m = 0%nat /\ m <> [].
Proof.
  unfold matchNumber.
  destruct (spanDigits_app s) as [Hs Hd].
  destruct (spanDigits s) as [int rest]. cbn [fst snd] in *.
  destruct int as [|i int]; [discriminate|].
  assert (Hint : carets (i :: int) = 0%nat) by (apply digits_no_caret, Hd).
  destruct rest as [|dot rest'].
  - intros H; injection H as <- <-. repeat split; [exact Hs | exact Hint | discriminate].
  - destruct (dot =? ch ".")%N eqn:Hdot.
    + destruct (spanDigits_app rest') as [Hr Hf].
      destruct (spanDigits rest') as [frac rest'']. cbn [fst snd] in *.
      destruct frac as [|f frac].
      * intros H; injection H as <- <-.
        repeat split; [exact Hs | exact Hint | discriminate].
      * intros H; injection H as <- <-.
        apply N.eqb_eq in Hdot. subst dot.
        change (i :: int ++ ch "." :: f :: frac)
          with ((i :: int) ++ ch "." :: f :: frac).
        repeat split; [| |discriminate].
        -- rewrite Hs at 1. rewrite Hr at 1.
           rewrite <- (app_assoc (i :: int) (ch "." :: f :: frac) rest'').
           reflexivity.
        -- rewrite carets_app, Hint, carets_cons, (digits_no_caret _ Hf).
           reflexivity.
    + intros H; injection H as <- <-.
      repeat split; [exact Hs | exact Hint | discriminate].
Qed.

Lemma spanNotClose_app (s : jsstring) :
  s = fst (spanNotClose s) ++ snd (spanNotClose s).
Proof.
  induction s as [|c t IH]; [reflexivity|].
  cbn [spanNotClose]. destruct (c =? ch ")")%N; [reflexivity|].
  destruct (spanNotClose t) as [d r]. cbn [fst snd] in *.
  cbn [app]. f_equal. exact IH.
Qed.

Lemma matchGroup_app (s g r : jsstring) :
  matchGroup s = Some (g, r) -> s = g ++ r /\ g <> [].
Proof.
  unfold matchGroup. destruct s as [|c t]; [discriminate|].
  destruct (c =? ch "(")%N; [|discriminate].
  pose proof (spanNotClose_app t) as Ht.
  destruct (spanNotClose t) as [inner rest]. cbn [fst snd] in Ht.
  destruct inner as [|i inner]; [discriminate|].
  destruct rest as [|close rest]; [discriminate|].
  intros H; injection H as <- <-. split; [|discriminate].
  rewrite Ht. cbn [app]. rewrite <- app_assoc. reflexivity.
Qed.

(** A match of the whole pattern is a base, a caret and an exponent at the
    head of the text; the exponent has no caret. *)
Lemma matchPower_app (s base exp : jsstring) :
  matchPower s = Some (base, exp) ->
  exists rest, s = base ++ ch "^" :: exp ++ rest
               /\ base <> [] /\ carets exp = 0%nat.
Proof.
  unfold matchPower.
  assert (Hbase : forall b r,
             match matchGroup s with Some x => Some x | None => matchNumber s end
             = Some (b, r) -> s = b ++ r /\ b <> []).
  { intros b r. destruct (matchGroup s) as [[g r']|] eqn:Hg.
    - intros H; injection H as <- <-. apply matchGroup_app, Hg.
    - intros H. apply matchNumber_app in H. tauto. }
  destruct (match matchGroup s with Some x => Some x | None => matchNumber s end)
    as [[b r]|]; [|discriminate].
  destruct (Hbase b r eq_refl) as [Hs Hb].
  destruct r as [|c r]; [discriminate|].
  destruct (c =? ch "^")%N eqn:Hc; [|discriminate].
  apply N.eqb_eq in Hc. subst c.
  destruct (matchNumber r) as [[e r']|] eqn:He; [|discriminate].
  intros H; injection H as <- <-.
  apply matchNumber_app in He. destruct He as [Hr [He _]].
  exists r'. rewrite Hs, Hr. repeat split; assumption.
Qed.

Lemma replacePowerFrom_skip (p rest : jsstring) :
  replacePowerFrom (List.length p) (p ++ rest) = replacePowerFrom 0 rest.
Proof.
  induction p as [|c p IH]; [reflexivity|]. exact IH.
Qed.

Lemma replacePower_cons (c : N) (t : jsstring) :
  replacePower (c :: t) =
  match matchPower (c :: t) with
  | Some (base, exp) =>
      str "Math.pow(" ++ base ++ str "," ++ exp ++ str ")"
      ++ replacePowerFrom (List.length base + List.length exp) t
  | None => c :: replacePower t
  end.
Proof. reflexivity. Qed.

Lemma replacePower_carets :
  forall s, replacePower s = s \/ (carets (replacePower s) < carets s)%nat.
Proof.
  assert (H : forall n s, (List.length s <= n)%nat ->
                replacePower s = s \/ (carets (replacePower s) < carets s)%nat).
  { induction n as [|n IH]; intros [|c t] Hlen;
      try (left; reflexivity); cbn [List.length] in Hlen; [lia|].
    rewrite replacePower_cons.
    destruct (matchPower (c :: t)) as [[base exp]|] eqn:Hm.
    - right.
      destruct (matchPower_app _ _ _ Hm) as [rest [Hs [Hb He]]].
      destruct base as [|b base]; [contradiction Hb; reflexivity|].
      cbn [app] in Hs. injection Hs as Hc Ht. subst b. subst t.
      change 94%N with (ch "^").
      replace (List.length (c :: base) + List.length exp)%nat
        with (List.length (base ++ ch "^" :: exp)).
      2:{ rewrite length_app. cbn [List.length]. lia. }
      replace (base ++ ch "^" :: exp ++ rest)
        with ((base ++ ch "^" :: exp) ++ rest).
      2:{ rewrite <- app_assoc. reflexivity. }
      rewrite replacePowerFrom_skip.
      change (replacePowerFrom 0 rest) with (replacePower rest).
      assert (Hrest : (carets (replacePower rest) <= carets rest)%nat).
      { destruct (IH rest) as [-> | Hlt]; [|lia|lia].
        rewrite !length_app in Hlen. cbn [List.length] in Hlen.
        rewrite length_app in Hlen. lia. }
      assert (Hin : carets (c :: (base ++ ch "^" :: exp) ++ rest)
                    = (carets (c :: base) + 1 + carets rest)%nat).
      { change (c :: (base ++ ch "^" :: exp) ++ rest)
          with (((c :: base) ++ ch "^" :: exp) ++ rest).
        rewrite !carets_app, (carets_cons (ch "^")), He.
        change (ch "^" =? ch "^")%N with true. cbv iota. lia. }
      assert (Hout : carets (str "Math.pow(" ++ (c :: base) ++ str "," ++ exp
                             ++ str ")" ++ replacePower rest)
                     = (carets (c :: base) + carets (replacePower rest))%nat).
      { rewrite !carets_app, He.
        change (carets (str "Math.pow(")) with 0%nat.
        change (carets (str ",")) with 0%nat.
        change (carets (str ")")) with 0%nat. lia. }
      rewrite Hin, Hout. lia.
    - destruct (IH t) as [-> | Hlt]; [lia | left; reflexivity |].
      right. rewrite !carets_cons. lia. }
  intros s. apply (H (List.length s)). lia.
Qed.

(** X2: A pass of l.31 either changes nothing or leaves strictly fewer carets:
    every match consumes one caret and the text put in its place brings
    none; and a pass that changes nothing would change nothing again. *)
Theorem replacePower_fewer_carets :
  forall s,
    (replacePower s = s \/ (carets (replacePower s) < carets s)%nat)
    /\ (carets (replacePower s) <= carets s)%nat.
Proof.
  intros s. destruct (replacePower_carets s) as [H | H].
  - split; [left; exact H | rewrite H; apply Nat.le_refl].
  - split; [right; exact H | apply Nat.lt_le_incl, H].
Qed.

(** ** The loop ends within ten passes or never *)

Lemma powerLoop_step (fuel : nat) (e : jsstring) (hasPower : bool) :
  powerLoop (S fuel) e hasPower =
  if includes (ch "^") e then
    if negb (includes (ch "^") (replacePower e)) then Go (replacePower e, true)
    else if (10 <? splitLength (ch "^") (replacePower e))%nat
         then Stop (Message errTooManyPowerOps)
         else powerLoop fuel (replacePower e) true
  else Go (e, hasPower).
Proof. reflexivity. Qed.

Lemma powerLoop_zero (e : jsstring) (hasPower : bool) :
  powerLoop 0 e hasPower =
  if includes (ch "^") e then Spin else Go (e, hasPower).
Proof. reflexivity. Qed.

Lemma powerLoop_within (n : nat) :
  forall fuel e hasPower,
    (carets e <= n)%nat ->
    powerLoop fuel e hasPower <> Spin ->
    powerLoop n e hasPower = powerLoop fuel e hasPower.
Proof.
  induction n as [|n IH]; intros fuel e hasPower Hc Hspin.
  - assert (Hinc : includes (ch "^") e = false) by (apply includes_carets; lia).
    rewrite !(powerLoop_without_caret _ _ _ Hinc). reflexivity.
  - destruct (includes (ch "^") e) eqn:Hinc.
    2:{ rewrite !(powerLoop_without_caret _ _ _ Hinc). reflexivity. }
    destruct fuel as [|fuel].
    { rewrite powerLoop_zero, Hinc in Hspin. contradiction Hspin. reflexivity. }
    rewrite powerLoop_step, Hinc in Hspin. rewrite !powerLoop_step, Hinc.
    destruct (negb (includes (ch "^") (replacePower e))); [reflexivity|].
    destruct (10 <? splitLength (ch "^") (replacePower e))%nat eqn:Hmany;
      [reflexivity|].
    apply IH; [|exact Hspin].
    destruct (replacePower_carets e) as [Hsame | Hless]; [|lia].
    exfalso. apply Hspin. rewrite Hsame in *.
    apply powerLoop_stuck; assumption.
Qed.

Lemma powerLoop_ten (fuel : nat) (e : jsstring) (hasPower : bool) :
  powerLoop fuel e hasPower <> Spin ->
  powerLoop 10 e hasPower = powerLoop fuel e hasPower.
Proof.
  intros Hspin.
  destruct (includes (ch "^") e) eqn:Hinc.
  2:{ rewrite !(powerLoop_without_caret _ _ _ Hinc). reflexivity. }
  destruct fuel as [|fuel].
  { rewrite powerLoop_zero, Hinc in Hspin. contradiction Hspin. reflexivity. }
  rewrite powerLoop_step, Hinc in Hspin.
  rewrite (powerLoop_step 9), (powerLoop_step fuel), Hinc.
  destruct (negb (includes (ch "^") (replacePower e))); [reflexivity|].
  destruct (10 <? splitLength (ch "^") (replacePower e))%nat eqn:Hmany;
    [reflexivity|].
  apply powerLoop_within; [|exact Hspin].
  apply Nat.ltb_ge in Hmany. unfold splitLength in Hmany. unfold carets. lia.
Qed.

(** X1: whenever [evaluate] returns, the loop of l.28 has made at most ten
    passes: ten units of fuel give the same result; and an input on which
    ten passes do not end the loop never returns. *)
Theorem evaluate_returns_within_ten_passes :
  forall runFunction fuel input,
    (forall r, evaluate runFunction fuel input = Some r ->
               evaluate runFunction 10 input = Some r)
    /\ (evaluate runFunction 10 input = None ->
        evaluate runFunction fuel input = None).
Proof.
  intros runFunction fuel input.
  assert (H : forall r, evaluate runFunction fuel input = Some r ->
                        evaluate runFunction 10 input = Some r).
  { intros r. unfold evaluate. rewrite !sanitize_unfold.
    destruct (isEmptyInput input); [auto|].
    destruct (powerLoop fuel (normalize input) false) as [[e hp]|v|] eqn:Hloop;
      [| |discriminate].
    - rewrite (powerLoop_ten fuel), Hloop; [auto|].
      rewrite Hloop. discriminate.
    - rewrite (powerLoop_ten fuel), Hloop; [auto|].
      rewrite Hloop. discriminate. }
  split; [exact H|].
  intros Hten. destruct (evaluate runFunction fuel input) as [r|] eqn:Hr;
    [|reflexivity].
  rewrite (H r eq_refl) in Hten. discriminate Hten.
Qed.

Lemma evaluate_returns_within_ten_passes_witness :
  evaluate Arith.engine 10 (str "(2^3)^2)") = Some (Message errUnmatchedParens)
  /\ evaluate Arith.engine 25 (str "2^-1") = None.
Proof.
  destruct (evaluate_returns_within_ten_passes Arith.engine 25 (str "(2^3)^2)"))
    as [Hsome _].
  destruct (evaluate_returns_within_ten_passes Arith.engine 25 (str "2^-1"))
    as [_ Hnone].
  split; [apply Hsome | apply Hnone]; vm_compute; reflexivity.
Defined.

(** ** The parenthesis check *)

Lemma parenLoop_cons (n : Z) (c : N) (t : jsstring) :
  parenLoop n (c :: t) =
  if (n + depth [c] <? 0)%Z then None else parenLoop (n + depth [c]) t.
Proof.
  cbn [parenLoop depth].
  destruct (c =? ch "(")%N, (c =? ch ")")%N;
    repeat match goal with
           | |- context [(?a + 1 - 1)%Z] => replace (a + 1 - 1)%Z with a by lia
           | |- context [(?a + (1 - 1 + 0))%Z] => replace (a + (1 - 1 + 0))%Z with a by lia
           | |- context [(?a + (1 - 0 + 0))%Z] => replace (a + (1 - 0 + 0))%Z with (a + 1)%Z by lia
           | |- context [(?a + (0 - 1 + 0))%Z] => replace (a + (0 - 1 + 0))%Z with (a - 1)%Z by lia
           | |- context [(?a + (0 - 0 + 0))%Z] => replace (a + (0 - 0 + 0))%Z with a by lia
           end; reflexivity.
Qed.

Lemma depth_cons (c : N) (t : jsstring) : depth (c :: t) = (depth [c] + depth t)%Z.
Proof. cbn [depth]. lia. Qed.

(** The loop of l.56-60 returns the final count exactly when no prefix of
    the text closes more parentheses than it has opened. *)
Lemma parenLoop_spec (s : jsstring) :
  forall n m,
    (0 <= n)%Z ->
    (parenLoop n s = Some m <->
     m = (n + depth s)%Z /\ forall p q, s = p ++ q -> (0 <= n + depth p)%Z).
Proof.
  induction s as [|c t IH]; intros n m Hn.
  - cbn [parenLoop depth]. split.
    + intros H; injection H as <-. split; [lia|].
      intros [|x p] q Hpq; [cbn [depth]; lia | discriminate Hpq].
    + intros [-> _]. f_equal. lia.
  - rewrite parenLoop_cons, (depth_cons c t).
    destruct (n + depth [c] <? 0)%Z eqn:Hneg.
    + split; [discriminate|]. intros [_ Hpre].
      apply Z.ltb_lt in Hneg. specialize (Hpre [c] t eq_refl). lia.
    + apply Z.ltb_ge in Hneg. rewrite (IH _ m Hneg). split.
      * intros [-> Hpre]. split; [lia|].
        intros [|x p] q Hpq; [cbn [depth]; lia|].
        cbn [app] in Hpq. injection Hpq as <- Hpq.
        rewrite (depth_cons c p). specialize (Hpre p q Hpq). lia.
      * intros [-> Hpre]. split; [lia|].
        intros p q Hpq. specialize (Hpre (c :: p) q).
        rewrite (depth_cons c p) in Hpre. cbn [app] in Hpre.
        rewrite Hpq in Hpre. specialize (Hpre eq_refl). lia.
Qed.

Lemma parenLoop_balanced (s : jsstring) :
  parenLoop 0 s = Some 0%Z <-> Balanced s.
Proof.
  rewrite (parenLoop_spec s 0 0 (Z.le_refl 0)). unfold Balanced.
  split; intros [H1 H2]; (split; [lia|]); intros p q Hpq;
    specialize (H2 p q Hpq); lia.
Qed.

(** ** What reaches the execution *)

Lemma powerLoop_go (fuel : nat) :
  forall x hasPower0 e hasPower,
    powerLoop fuel x hasPower0 = Go (e, hasPower) ->
    includes (ch "^") e = false
    /\ (hasPower = true \/ (hasPower = hasPower0 /\ e = x)).
Proof.
  induction fuel as [|fuel IH]; intros x hp0 e hp.
  - rewrite powerLoop_zero. destruct (includes (ch "^") x) eqn:Hinc; [discriminate|].
    intros H; injection H as <- <-. auto.
  - rewrite powerLoop_step. destruct (includes (ch "^") x) eqn:Hinc.
    + destruct (includes (ch "^") (replacePower x)) eqn:Hinc'; cbn [negb].
      * destruct (10 <? splitLength (ch "^") (replacePower x))%nat; [discriminate|].
        intros H. destruct (IH _ _ _ _ H) as [H1 [H2 | [H2 _]]]; auto.
      * intros H; injection H as <- <-. auto.
    + intros H; injection H as <- <-. auto.
Qed.

Lemma testClass_true (inClass : N -> bool) (s : jsstring) :
  testClass inClass s = true -> s <> [] /\ forallb inClass s = true.
Proof.
  unfold testClass. intros H. apply andb_true_iff in H. destruct H as [Hne Hall].
  split; [|exact Hall]. intros ->. discriminate Hne.
Qed.

Lemma original_in_mathPow (s : jsstring) :
  forallb inOriginalClass s = true -> forallb inMathPowClass s = true.
Proof.
  rewrite !forallb_forall. intros H c Hc. unfold inMathPowClass.
  rewrite (H c Hc). reflexivity.
Qed.

(** X3: the text that passes every check of l.14-61, the only one the division
    check and [Function] ever see, is not empty, is made of the characters
    of the list of l.45 only (of the list of l.44 when no power was
    rewritten, the text being then the normalised input), has no caret, and
    has balanced parentheses. *)
Theorem sanitized_text_is_allow_listed :
  forall fuel input e,
    sanitize fuel input = Go e ->
    e <> []
    /\ forallb inMathPowClass e = true
    /\ includes (ch "^") e = false
    /\ Balanced e
    /\ (includes (ch "^") (normalize input) = false ->
        e = normalize input /\ forallb inOriginalClass e = true).
Proof.
  intros fuel input e. rewrite sanitize_unfold.
  destruct (isEmptyInput input); [discriminate|].
  destruct (powerLoop fuel (normalize input) false) as [[e' hp]|v|] eqn:Hloop;
    try discriminate.
  destruct (powerLoop_go _ _ _ _ _ Hloop) as [Hcaret Hhp].
  destruct (negb hp && negb (originalPattern (removeWhiteSpace e'))) eqn:Horig;
    [discriminate|].
  destruct (hp && negb (withMathPow e')) eqn:Hpow; [discriminate|].
  destruct (parenLoop 0 e') as [parenCount|] eqn:Hparen; [|discriminate].
  destruct (parenCount =? 0)%Z eqn:Hzero; cbn [negb]; [|discriminate].
  intros H; injection H as <-.
  apply Z.eqb_eq in Hzero. subst parenCount.
  apply parenLoop_balanced in Hparen.
  destruct hp.
  - cbn [andb] in Hpow. apply negb_false_iff in Hpow.
    destruct (testClass_true _ _ Hpow) as [Hne Hall].
    split; [exact Hne|]. split; [exact Hall|]. split; [exact Hcaret|].
    split; [exact Hparen|].
    intros Hnone. rewrite (powerLoop_without_caret _ _ _ Hnone) in Hloop.
    discriminate Hloop.
  - destruct Hhp as [Hhp | [_ ->]]; [discriminate Hhp|].
    cbn [negb andb] in Horig. apply negb_false_iff in Horig.
    rewrite removeWhiteSpace_normalize in Horig.
    destruct (testClass_true _ _ Horig) as [Hne Hall].
    split; [exact Hne|]. split; [apply original_in_mathPow, Hall|].
    split; [exact Hcaret|]. split; [exact Hparen|].
    intros _. split; [reflexivity | exact Hall].
Qed.

Lemma sanitized_text_is_allow_listed_witness :
  str "Math.pow((2+1),2)*3.141592653589793" <> []
  /\ forallb inMathPowClass (str "Math.pow((2+1),2)*3.141592653589793") = true
  /\ includes (ch "^") (str "Math.pow((2+1),2)*3.141592653589793") = false
  /\ Balanced (str "Math.pow((2+1),2)*3.141592653589793")
  /\ (includes (ch "^") (normalize (str "(2 + 1)^2 * pi")) = false ->
      str "Math.pow((2+1),2)*3.141592653589793" = normalize (str "(2 + 1)^2 * pi")
      /\ forallb inOriginalClass (str "Math.pow((2+1),2)*3.141592653589793") = true).
Proof.
  apply (sanitized_text_is_allow_listed 1 (str "(2 + 1)^2 * pi")).
  vm_compute. reflexivity.
Defined.

Lemma execute_three_messages runFunction (e m : jsstring) :
  execute runFunction e = Message m ->
  In m [errDivisionByZero; errInvalidExpression; errInvalidResult].
Proof.
  unfold execute.
  destruct (divisionByZeroTest e); [intros H; injection H as <-; in_list|].
  destruct (runFunction (functionBody e)) as [result|];
    [|intros H; injection H as <-; in_list].
  destruct (toNumber result) as [r|]; [|intros H; injection H as <-; in_list].
  destruct (negb (PrimFloat.is_finite r)); [|discriminate].
  intros H; injection H as <-; in_list.
Qed.

(** X4: once the characters are accepted, [evaluate] answers with the
    unmatched-parentheses message exactly when the text checked is not
    balanced: a closing parenthesis comes before its opening one, or one is
    left open. *)
Theorem unmatched_parentheses_iff :
  forall runFunction fuel input e hasPower,
    isEmptyInput input = false ->
    powerLoop fuel (normalize input) false = Go (e, hasPower) ->
    (if hasPower then withMathPow e else originalPattern (removeWhiteSpace e)) = true ->
    (evaluate runFunction fuel input = Some (Message errUnmatchedParens)
     <-> ~ Balanced e).
Proof.
  intros runFunction fuel input e hp Hne Hloop Hclass.
  unfold evaluate. rewrite sanitize_unfold, Hne, Hloop.
  replace (negb hp && negb (originalPattern (removeWhiteSpace e))) with false
    by (destruct hp; [reflexivity | rewrite Hclass; reflexivity]).
  replace (hp && negb (withMathPow e)) with false
    by (destruct hp; [rewrite Hclass; reflexivity | reflexivity]).
  rewrite <- parenLoop_balanced.
  destruct (parenLoop 0 e) as [parenCount|]; [|split; [discriminate | reflexivity]].
  destruct (parenCount =? 0)%Z eqn:Hzero; cbn [negb].
  - apply Z.eqb_eq in Hzero. subst parenCount. split.
    + intros H. injection H as H. apply execute_three_messages in H.
      cbn [In] in H.
      repeat (destruct H as [H|H]; [vm_compute in H; discriminate H|]).
      contradiction H.
    + intros H. contradiction H. reflexivity.
  - split; [|reflexivity]. intros _ H. injection H as ->. discriminate Hzero.
Qed.

Lemma unmatched_parentheses_iff_witness :
  (evaluate Arith.engine 0 (str "(2+3") = Some (Message errUnmatchedParens)
   <-> ~ Balanced (str "(2+3"))
  /\ (evaluate Arith.engine 1 (str ")2^3(") = Some (Message errUnmatchedParens)
      <-> ~ Balanced (str ")Math.pow(2,3)(")).
Proof.
  split.
  - apply (unmatched_parentheses_iff Arith.engine 0 (str "(2+3") (str "(2+3") false);
      reflexivity.
  - apply (unmatched_parentheses_iff Arith.engine 1 (str ")2^3(")
             (str ")Math.pow(2,3)(") true); reflexivity.
Defined.

(** ** The empty input *)

Lemma trimStart_nil (s : jsstring) :
  trimStart s = [] <-> forallb isWhiteSpace s = true.
Proof.
  induction s as [|c t IH]; [split; reflexivity|].
  cbn [trimStart forallb]. destruct (isWhiteSpace c); cbn [andb].
  - exact IH.
  - split; discriminate.
Qed.

Lemma trimStart_head (s : jsstring) (c : N) (t : jsstring) :
  trimStart s = c :: t -> isWhiteSpace c = false.
Proof.
  induction s as [|x s IH]; [discriminate|].
  cbn [trimStart]. destruct (isWhiteSpace x) eqn:Hx; [exact IH|].
  intros H; injection H as <- _. exact Hx.
Qed.

Lemma trim_nil (s : jsstring) :
  trim s = [] <-> forallb isWhiteSpace s = true.
Proof.
  unfold trim. rewrite <- trimStart_nil. split.
  - intros H.
    assert (H' : trimStart (rev (trimStart s)) = []).
    { destruct (trimStart (rev (trimStart s))) as [|x l]; [reflexivity|].
      cbn [rev] in H. destruct (rev l); discriminate H. }
    apply trimStart_nil in H'.
    destruct (trimStart s) as [|c t] eqn:Hs; [reflexivity|].
    apply trimStart_head in Hs.
    rewrite forallb_forall in H'.
    rewrite (H' c) in Hs; [discriminate Hs|].
    apply -> in_rev. left. reflexivity.
  - intros ->. reflexivity.
Qed.

Lemma isEmptyInput_spec (s : jsstring) :
  isEmptyInput s = true <-> forallb isWhiteSpace s = true.
Proof.
  unfold isEmptyInput. rewrite orb_true_iff, !jsstring_eqb_eq, trim_nil.
  split; [intros [-> | H]; [reflexivity | exact H] | auto].
Qed.

(** X5: [evaluate] answers with the empty-expression message exactly when its
    input is empty or made of white space only; no other path returns that
    message. *)
Theorem empty_expression_iff :
  forall runFunction fuel input,
    evaluate runFunction fuel input = Some (Message errEmptyExpression)
    <-> forallb isWhiteSpace input = true.
Proof.
  intros runFunction fuel input. rewrite <- isEmptyInput_spec.
  unfold evaluate. rewrite sanitize_unfold.
  destruct (isEmptyInput input); [split; reflexivity|].
  split; [|discriminate]. intros H. exfalso.
  destruct (powerLoop fuel (normalize input) false) as [[e hp]|v|] eqn:Hloop;
    [| |discriminate].
  - destruct (negb hp && negb (originalPattern (removeWhiteSpace e)));
      [vm_compute in H; discriminate H|].
    destruct (hp && negb (withMathPow e)); [vm_compute in H; discriminate H|].
    destruct (parenLoop 0 e) as [parenCount|]; [|vm_compute in H; discriminate H].
    destruct (negb (parenCount =? 0)%Z); [vm_compute in H; discriminate H|].
    injection H as H. apply execute_three_messages in H. cbn [In] in H.
    repeat (destruct H as [H|H]; [vm_compute in H; discriminate H|]).
    contradiction H.
  - apply powerLoop_stop in Hloop. subst v. vm_compute in H. discriminate H.
Qed.

(** ** The history as a list of the most recent results *)

Lemma addToHistory_firstn (e : jsstring) (r : float) (now : Z) (this : t)
  (full : list HistoryEntry) :
  maxHistoryItems this = 10%nat ->
  history this = firstn 10 full ->
  history (addToHistory e r now this)
  = firstn 10 ({| expression := e; result := r; timestamp := now |} :: full).
Proof.
  intros Hmax Hh. unfold addToHistory. cbn [history]. rewrite Hmax, Hh.
  pose proof (length_firstn 10 full) as Hlen.
  destruct (10 <? List.length (_ :: firstn 10 full))%nat eqn:Hfull.
  - apply Nat.ltb_lt in Hfull. cbn [List.length] in Hfull.
    rewrite removelast_firstn_len. cbn [List.length Nat.pred].
    replace (List.length (firstn 10 full)) with 10%nat by lia.
    rewrite !firstn_cons, firstn_firstn. reflexivity.
  - apply Nat.ltb_ge in Hfull. cbn [List.length] in Hfull.
    rewrite firstn_cons. f_equal.
    rewrite !firstn_all2; [reflexivity | lia | lia].
Qed.

Lemma run_firstn (ops : list Op) :
  forall this full,
    maxHistoryItems this = 10%nat ->
    history this = firstn 10 full ->
    history (run ops this) = firstn 10 (additions full ops).
Proof.
  unfold run. induction ops as [|op ops IH]; intros this full Hmax Hh;
    cbn [fold_left additions]; [exact Hh|].
  destruct op as [e r now|]; cbn [step].
  - apply IH; [exact Hmax | apply addToHistory_firstn; assumption].
  - apply IH; [exact Hmax | reflexivity].
Qed.

(** X8: after any sequence of additions and clearings from the empty history,
    the history is exactly the ten most recent entries added since the last
    clearing (all of them when fewer), the most recent first: what is
    dropped is always the oldest. *)
Theorem history_is_the_ten_most_recent :
  forall ops, history (run ops new) = firstn 10 (additions [] ops).
Proof.
  intros ops. apply run_firstn; reflexivity.
Qed.

(** ** Editing the display *)

Lemma showsError_head (s : jsstring) :
  showsError s = true -> exists t, s = ch "E" :: t.
Proof.
  destruct s as [|c t]; [discriminate|]. intros H.
  exists t. f_equal. unfold showsError in H.
  apply orb_true_iff in H. destruct H as [H|H].
  - change (str "Error") with (ch "E" :: str "rror") in H.
    cbn [JsString.eqb] in H. apply andb_true_iff in H.
    destruct H as [H _]. apply N.eqb_eq, H.
  - change (str "Error:") with (ch "E" :: str "rror:") in H.
    cbn [startsWith] in H. apply andb_true_iff in H.
    destruct H as [H _]. symmetry. apply N.eqb_eq, H.
Qed.

Lemma startsWith_snoc (p : jsstring) :
  forall d c, startsWith p (d ++ [c]) = true ->
              startsWith p d = true \/ p = d ++ [c].
Proof.
  induction p as [|x p IH]; intros d c; [left; reflexivity|].
  destruct d as [|y d]; cbn [app startsWith].
  - intros H. apply andb_true_iff in H. destruct H as [Hx Hp].
    apply N.eqb_eq in Hx. subst x. right. destruct p; [reflexivity | discriminate Hp].
  - intros H. apply andb_true_iff in H. destruct H as [Hx Hp].
    destruct (IH d c Hp) as [H | ->].
    + left. rewrite Hx, H. reflexivity.
    + right. apply N.eqb_eq in Hx. subst x. reflexivity.
Qed.

(** A character other than [r] added at the end of a display that shows no
    error does not make an error marker of it. *)
Lemma showsError_snoc (d : jsstring) (c : N) :
  showsError d = false -> c <> ch "r" -> showsError (d ++ [c]) = false.
Proof.
  intros Hd Hc. destruct (showsError (d ++ [c])) eqn:H; [|reflexivity].
  exfalso. unfold showsError in H. apply orb_true_iff in H. destruct H as [H|H].
  - apply jsstring_eqb_eq in H.
    change (str "Error") with (str "Erro" ++ [ch "r"]) in H.
    apply app_inj_tail in H. destruct H as [_ H]. contradiction.
  - apply startsWith_snoc in H. destruct H as [H|H].
    + unfold showsError in Hd. rewrite H, orb_true_r in Hd. discriminate Hd.
    + change (str "Error:") with (str "Error" ++ [ch ":"]) in H.
      apply app_inj_tail in H. destruct H as [<- _]. discriminate Hd.
Qed.

Lemma sliceLast_snoc (d : jsstring) (c : N) : sliceLast (d ++ [c]) = [c].
Proof.
  induction d as [|x d IH]; [reflexivity|].
  cbn [app sliceLast]. destruct (d ++ [c]) eqn:Hd; [|exact IH].
  destruct d; discriminate Hd.
Qed.

(** X9: backspace undoes the entry of one character: on a display that shows no
    error the display is back as it was; after an error the character had
    replaced the marker and the display is left empty. *)
Theorem backspace_undoes_a_character :
  forall display c,
    c <> ch "r" ->
    (showsError display = false ->
     handleBackspace (handleNumberClick [c] display) = display)
    /\ (showsError display = true ->
        handleBackspace (handleNumberClick [c] display) = []).
Proof.
  intros d c Hc. unfold handleBackspace, handleNumberClick, appendToDisplay.
  split; intros Hd; rewrite Hd.
  - rewrite (showsError_snoc d c Hd Hc). apply removelast_last.
  - destruct (showsError [c]); reflexivity.
Qed.

Lemma backspace_undoes_a_character_witness :
  handleBackspace (handleNumberClick (str "7") (str "12+")) = str "12+"
  /\ handleBackspace (handleNumberClick (str "7") errDivisionByZero) = [].
Proof.
  assert (Hc : ch "7" <> ch "r") by discriminate.
  destruct (backspace_undoes_a_character (str "12+") (ch "7") Hc) as [H1 _].
  destruct (backspace_undoes_a_character errDivisionByZero (ch "7") Hc) as [_ H2].
  split; [apply H1 | apply H2]; reflexivity.
Defined.

(** X10: the minus sign lets operators stack: after a minus sign, which is
    always appended, any other value takes the place of that minus sign, so
    that the two clicks together append the value to the display as it was,
    also when it ended in an operator (["5+"] becomes ["5+*"]) and when it
    was empty (the display becomes ["*"]). *)
Theorem operator_after_minus_is_appended :
  forall display value,
    showsError display = false ->
    value <> str "-" ->
    handleOperatorClick value (handleOperatorClick (str "-") display)
    = display ++ value.
Proof.
  intros d v Hd Hv.
  assert (Hminus : handleOperatorClick (str "-") d = d ++ str "-").
  { unfold handleOperatorClick, appendToDisplay. rewrite Hd.
    cbv beta iota zeta. rewrite Hd, jsstring_eqb_refl.
    cbn [negb]. rewrite !andb_false_r. reflexivity. }
  rewrite Hminus.
  assert (Hd' : showsError (d ++ str "-") = false)
    by (apply showsError_snoc; [exact Hd | discriminate]).
  unfold handleOperatorClick. rewrite Hd'. cbv beta iota zeta.
  apply jsstring_eqb_neq in Hv. rewrite Hv.
  change (str "-") with [ch "-"]. rewrite sliceLast_snoc.
  replace (JsString.eqb (d ++ [ch "-"]) []) with false
    by (destruct d; reflexivity).
  cbn [andb negb]. change (testOperator [ch "-"]) with true. cbv iota.
  unfold sliceInit. rewrite removelast_last. reflexivity.
Qed.

Lemma operator_after_minus_is_appended_witness :
  handleOperatorClick (str "*") (handleOperatorClick (str "-") (str "5+")) = str "5+*"
  /\ handleOperatorClick (str "*") (handleOperatorClick (str "-") []) = str "*".
Proof.
  split.
  - apply (operator_after_minus_is_appended (str "5+") (str "*"));
      [reflexivity | discriminate].
  - apply (operator_after_minus_is_appended [] (str "*"));
      [reflexivity | discriminate].
Defined.

(** ** Parentheses go through the operator handler *)

(** X11: the keys [(] and [)] are sent to [handleOperatorClick]: on an empty
    display the parenthesis is ignored, and right after an operator it
    takes the place of that operator. The same holds of any value other
    than the minus sign. *)
Theorem parenthesis_keys_are_operators :
  forall ctrl page value display,
    value = str "(" \/ value = str ")" ->
    showsError display = false ->
    handleKeyboardInput {| key := value; ctrlKey := ctrl |} page
    = CallOperatorClick value
    /\ handleOperatorClick value [] = []
    /\ (display <> [] ->
        testOperator (sliceLast display) = true ->
        handleOperatorClick value display = sliceInit display ++ value).
Proof.
  intros ctrl page value d Hv Hd.
  assert (Hminus : JsString.eqb value (str "-") = false)
    by (destruct Hv as [-> | ->]; reflexivity).
  split; [destruct Hv as [-> | ->]; reflexivity|].
  split; [destruct Hv as [-> | ->]; reflexivity|].
  intros Hne Hlast. unfold handleOperatorClick.
  rewrite Hd. cbv beta iota zeta.
  apply jsstring_eqb_neq in Hne. rewrite Hne, Hlast, Hminus. reflexivity.
Qed.

Lemma parenthesis_keys_are_operators_witness :
  handleOperatorClick (str "(") [] = []
  /\ handleOperatorClick (str "(") (str "5+") = str "5(".
Proof.
  destruct (parenthesis_keys_are_operators false
              {| historyToggleFree := true; themeToggleFree := true;
                 soundToggleFree := true |}
              (str "(") (str "5+") (or_introl eq_refl) eq_refl) as [_ [H1 H2]].
  split; [exact H1|]. apply H2; [discriminate | reflexivity].
Defined.

(** ** The keyboard *)

Lemma existsb_weaken (p q : N -> bool) (s : jsstring) :
  (forall c, p c = true -> q c = true) ->
  existsb p s = true -> existsb q s = true.
Proof.
  intros Hpq H. apply existsb_exists in H. destruct H as [c [Hin Hc]].
  apply existsb_exists. exists c. auto.
Qed.

(** X12: no key press ends in [handleCopy]: with the control key, [c] is taken
    by the clear branch of l.600, which comes before the copy branch of
    l.627. *)
Theorem keyboard_never_copies :
  forall event page,
    handleKeyboardInput event page <> CallCopy
    /\ (key event = str "c" -> ctrlKey event = true ->
        handleKeyboardInput event page = CallClear).
Proof.
  intros event page. unfold handleKeyboardInput.
  destruct (keyIs event "c" && ctrlKey event) eqn:Hc.
  - rewrite orb_true_r. split.
    + repeat match goal with
             | |- context [if ?b then _ else _] => destruct b
             end; discriminate.
    + intros Hkey _.
      replace (existsb isDigit (key event)) with false by (rewrite Hkey; reflexivity).
      unfold keyIs. rewrite Hkey. reflexivity.
  - split.
    + repeat match goal with
             | |- context [if ?b then _ else _] => destruct b
             end; discriminate.
    + intros Hkey Hctrl. unfold keyIs in Hc. rewrite Hkey, Hctrl in Hc.
      discriminate Hc.
Qed.

Lemma keyboard_never_copies_witness :
  handleKeyboardInput {| key := str "c"; ctrlKey := true |}
    {| historyToggleFree := true; themeToggleFree := true; soundToggleFree := true |}
  = CallClear.
Proof.
  apply (keyboard_never_copies {| key := str "c"; ctrlKey := true |}); reflexivity.
Defined.

(** X13: A key whose name contains a digit is entered as a number with its
    whole name, and its default action is cancelled: this is so of the
    digits and also of the function keys, whose names [F1] to [F12] are
    appended to the display. *)
Theorem key_names_with_a_digit_are_entered :
  forall event page app runFunction Number_toString fuel,
    existsb isDigit (key event) = true ->
    handleKeyboardInput event page = CallNumberClick (key event)
    /\ preventsDefault event page = true
    /\ (showsError (display app) = false ->
        handle runFunction Number_toString fuel app (NumberClick (key event))
        = Some (withDisplay app (display app ++ key event))).
Proof.
  intros event page app runFunction Number_toString fuel Hdigit.
  split; [|split].
  - unfold handleKeyboardInput. rewrite Hdigit. reflexivity.
  - unfold preventsDefault.
    rewrite (existsb_weaken isDigit isCalculatorChar _
               (fun c Hc => eq_trans (f_equal (fun b => b || _) Hc) eq_refl) Hdigit).
    reflexivity.
  - intros Hd. cbn [handle]. unfold handleNumberClick, appendToDisplay.
    rewrite Hd. reflexivity.
Qed.

Lemma key_names_with_a_digit_are_entered_witness :
  handleKeyboardInput {| key := str "F5"; ctrlKey := false |}
    {| historyToggleFree := true; themeToggleFree := true; soundToggleFree := true |}
  = CallNumberClick (str "F5")
  /\ handle Arith.engine (fun _ => []) 0
       {| display := str "12"; calculatorState := CalculatorState.new |}
       (NumberClick (str "F5"))
     = Some {| display := str "12F5"; calculatorState := CalculatorState.new |}.
Proof.
  destruct (key_names_with_a_digit_are_entered
              {| key := str "F5"; ctrlKey := false |}
              {| historyToggleFree := true; themeToggleFree := true;
                 soundToggleFree := true |}
              {| display := str "12"; calculatorState := CalculatorState.new |}
              Arith.engine (fun _ => []) 0 eq_refl) as [H1 [_ H2]].
  split; [exact H1 | apply H2; reflexivity].
Defined.

(** ** The theme and the sound setting *)

(** X14: after a toggle the theme is one of the two, it is what the page shows
    and what is stored, and a manager built from the stored value is in the
    same state; two toggles bring a light or dark theme back; a manager
    built from any other stored name keeps that name until the first
    toggle, which makes it light. *)
Theorem theme_toggle_persists :
  forall this : ThemeManager.t,
    (ThemeManager.currentTheme (ThemeManager.toggle this) = str "light"
     \/ ThemeManager.currentTheme (ThemeManager.toggle this) = str "dark")
    /\ ThemeManager.new (ThemeManager.calculatorTheme (ThemeManager.toggle this))
       = ThemeManager.toggle this
    /\ (ThemeManager.currentTheme this = str "light"
        \/ ThemeManager.currentTheme this = str "dark" ->
        ThemeManager.currentTheme (ThemeManager.toggle (ThemeManager.toggle this))
        = ThemeManager.currentTheme this)
    /\ (ThemeManager.currentTheme this <> str "light" ->
        ThemeManager.currentTheme (ThemeManager.toggle this) = str "light").
Proof.
  intros this. split; [|split; [|split]].
  - unfold ThemeManager.toggle. cbn [ThemeManager.currentTheme].
    destruct (JsString.eqb (ThemeManager.currentTheme this) (str "light")); auto.
  - unfold ThemeManager.toggle, ThemeManager.new.
    cbn [ThemeManager.calculatorTheme].
    destruct (JsString.eqb (ThemeManager.currentTheme this) (str "light"));
      reflexivity.
  - unfold ThemeManager.toggle. cbn [ThemeManager.currentTheme].
    intros [H | H]; rewrite H; reflexivity.
  - intros H. unfold ThemeManager.toggle. cbn [ThemeManager.currentTheme].
    apply jsstring_eqb_neq in H. rewrite H. reflexivity.
Qed.

Lemma theme_toggle_persists_witness :
  ThemeManager.currentTheme
    (ThemeManager.toggle (ThemeManager.toggle (ThemeManager.new None)))
  = str "light"
  /\ ThemeManager.currentTheme
       (ThemeManager.toggle (ThemeManager.new (Some (str "blue"))))
     = str "light".
Proof.
  destruct (theme_toggle_persists (ThemeManager.new None)) as [_ [_ [H1 _]]].
  destruct (theme_toggle_persists (ThemeManager.new (Some (str "blue"))))
    as [_ [_ [_ H2]]].
  split; [apply H1; left; reflexivity | apply H2; discriminate].
Defined.

(** X15: the sound flag survives a reload once toggled: a manager built from
    what [toggle] stored has the flag [toggle] set; two toggles restore the
    flag; any stored text other than [false], and no stored text, mean
    enabled; and no tone is played when the flag is off or no audio context
    exists. *)
Theorem sound_toggle_persists :
  forall (this : SoundManager.t) audio saved frequency duration,
    SoundManager.enabled
      (SoundManager.new (SoundManager.calculatorSound (SoundManager.toggle this)) audio)
    = SoundManager.enabled (SoundManager.toggle this)
    /\ SoundManager.enabled (SoundManager.toggle (SoundManager.toggle this))
       = SoundManager.enabled this
    /\ (saved <> Some (str "false") ->
        SoundManager.enabled (SoundManager.new saved audio) = true)
    /\ (SoundManager.enabled this = false \/ SoundManager.audioContext this = false ->
        SoundManager.play frequency duration this = None).
Proof.
  intros this audio saved frequency duration.
  split; [|split; [|split]].
  - unfold SoundManager.toggle, SoundManager.new.
    cbn [SoundManager.enabled SoundManager.calculatorSound].
    destruct (SoundManager.enabled this); reflexivity.
  - unfold SoundManager.toggle. cbn [SoundManager.enabled].
    apply negb_involutive.
  - intros Hs. unfold SoundManager.new. cbn [SoundManager.enabled].
    destruct saved as [s|]; [|reflexivity].
    apply negb_true_iff, jsstring_eqb_neq. intros ->. apply Hs. reflexivity.
  - unfold SoundManager.play. intros [-> | ->]; [reflexivity|].
    cbn [negb]. rewrite orb_true_r. reflexivity.
Qed.

Lemma sound_toggle_persists_witness :
  SoundManager.enabled (SoundManager.new (Some (str "yes")) true) = true
  /\ SoundManager.play 800 50 (SoundManager.toggle (SoundManager.new None true)) = None.
Proof.
  destruct (sound_toggle_persists (SoundManager.toggle (SoundManager.new None true))
              true (Some (str "yes")) 800%Z 50%Z) as [_ [_ [H1 H2]]].
  split; [apply H1; discriminate | apply H2; left; reflexivity].
Defined.

(** ** Editing never shows an error *)

Lemma keypad_not_error (d : jsstring) :
  forallb isKeypadChar d = true -> showsError d = false.
Proof.
  intros H. destruct (showsError d) eqn:He; [|reflexivity].
  apply showsError_head in He. destruct He as [t ->].
  cbn [forallb] in H. apply andb_true_iff in H. destruct H as [H _].
  discriminate H.
Qed.

Lemma forallb_removelast (p : N -> bool) (s : jsstring) :
  forallb p s = true -> forallb p (removelast s) = true.
Proof.
  induction s as [|c [|c' s] IH]; try reflexivity.
  change (removelast (c :: c' :: s)) with (c :: removelast (c' :: s)).
  intros H. cbn [forallb] in H. apply andb_true_iff in H. destruct H as [Hc Hs].
  change (forallb p (c :: removelast (c' :: s)))
    with (p c && forallb p (removelast (c' :: s))).
  rewrite Hc. apply IH. exact Hs.
Qed.

Lemma handleOperatorClick_keypad (value d : jsstring) :
  forallb isKeypadChar value = true ->
  forallb isKeypadChar d = true ->
  forallb isKeypadChar (handleOperatorClick value d) = true.
Proof.
  intros Hv Hd. unfold handleOperatorClick, appendToDisplay.
  rewrite (keypad_not_error d Hd). cbv beta iota zeta.
  rewrite (keypad_not_error d Hd).
  destruct (JsString.eqb d [] && negb (JsString.eqb value (str "-"))); [exact Hd|].
  destruct (testOperator (sliceLast d) && negb (JsString.eqb value (str "-"))).
  - rewrite forallb_app, Hv, andb_true_r. apply forallb_removelast, Hd.
  - rewrite forallb_app, Hv, Hd. reflexivity.
Qed.

Section Editing.

Variable runFunction : jsstring -> Completion.
Variable Number_toString : float -> jsstring.

Lemma editing_step (fuel : nat) (app : App) (event : Event) :
  editingEvent event ->
  forallb isKeypadChar (display app) = true ->
  exists app',
    handle runFunction Number_toString fuel app event = Some app'
    /\ forallb isKeypadChar (display app') = true
    /\ calculatorState app' = calculatorState app.
Proof.
  intros Hev Hd. pose proof (keypad_not_error _ Hd) as Herr.
  destruct event as [v|v| | |now| |f|v|]; cbn [editingEvent] in Hev;
    try contradiction; cbn [handle]; eexists; (split; [reflexivity|]);
    (split; [|reflexivity]); cbn [withDisplay display].
  - unfold handleNumberClick, appendToDisplay. rewrite Herr.
    rewrite forallb_app, Hd, Hev. reflexivity.
  - apply handleOperatorClick_keypad; assumption.
  - reflexivity.
  - unfold handleBackspace. rewrite Herr. apply forallb_removelast, Hd.
  - subst f. unfold handleScientific.
    destruct (JsString.eqb (trim (display app)) [] || showsError (trim (display app)));
      [exact Hd|].
    change (JsString.eqb (str "power") (str "sqrt")) with false.
    change (JsString.eqb (str "power") (str "square")) with false.
    change (JsString.eqb (str "power") (str "power")) with true.
    cbv iota. unfold appendToDisplay. rewrite Herr.
    rewrite forallb_app, Hd. reflexivity.
  - unfold handleConstant, appendToDisplay. rewrite Herr.
    destruct (JsString.eqb v [207%N; 8364%N]); [|exact Hd].
    rewrite forallb_app, Hd. reflexivity.
Qed.

(** X16: from a display made of keypad characters (the empty one to begin
    with), any sequence of digit, point, operator, parenthesis, clear,
    backspace, constant and power clicks leaves a display made of keypad
    characters: it never shows an error marker, never hangs, and leaves the
    history as it was. An error can only come from the equals, percentage,
    square root and square buttons. *)
Theorem editing_never_shows_an_error :
  forall fuel events app,
    Forall editingEvent events ->
    forallb isKeypadChar (display app) = true ->
    exists app',
      handleAll runFunction Number_toString fuel app events = Some app'
      /\ forallb isKeypadChar (display app') = true
      /\ showsError (display app') = false
      /\ calculatorState app' = calculatorState app.
Proof.
  intros fuel events. induction events as [|event events IH]; intros app Hev Hd.
  - exists app. repeat split; [exact Hd | apply keypad_not_error, Hd].
  - inversion Hev as [|? ? Hevent Hrest]; subst.
    destruct (editing_step fuel app event Hevent Hd) as [app1 [Hstep [Hd1 Hst1]]].
    destruct (IH app1 Hrest Hd1) as [app' [Hrun [Hd' [Herr Hst']]]].
    exists app'. cbn [handleAll]. rewrite Hstep.
    repeat split; try assumption. rewrite Hst'. exact Hst1.
Qed.

End Editing.

Lemma editing_never_shows_an_error_witness :
  exists app',
    handleAll Arith.engine (fun _ => []) 0
      {| display := []; calculatorState := CalculatorState.new |}
      [OperatorClick (str "-"); NumberClick (str "5"); OperatorClick (str "*");
       OperatorClick (str "/"); BackspaceClick; ScientificClick (str "power");
       NumberClick (str "2"); ConstantClick [0xCF; 0x20AC]%N] = Some app'
    /\ forallb isKeypadChar (display app') = true
    /\ showsError (display app') = false
    /\ calculatorState app' = CalculatorState.new.
Proof.
  apply editing_never_shows_an_error; [|reflexivity].
  repeat constructor.
Defined.

(** ** The equals button and the history *)

Lemma messages_start_with_Error (m : jsstring) :
  In m errorMessages -> startsWith (str "Error") m = true.
Proof.
  intros H. cbn [errorMessages taxonomy app In] in H.
  repeat (destruct H as [H|H]; [subst m; reflexivity|]).
  contradiction H.
Qed.

Lemma In_removelast {A : Type} (x : A) (l : list A) :
  In x (removelast l) -> In x l.
Proof.
  induction l as [|a [|b l] IH]; [auto | intros [] |].
  change (removelast (a :: b :: l)) with (a :: removelast (b :: l)).
  intros [-> | H]; [left; reflexivity | right; apply IH, H].
Qed.

Section Equals.

Variable runFunction : jsstring -> Completion.
Variable Number_toString : float -> jsstring.

(** X17: what the equals button does: nothing on a blank display or on an error
    marker, which is not evaluated again; on an error of [evaluate] the
    message is shown and the history is left as it was; on a number its
    text is shown and one entry is added; and it returns when [evaluate]
    does. *)
Theorem equals_outcomes :
  forall fuel now app,
    let expression := trim (display app) in
    (expression = [] \/ showsError expression = true ->
     handleEquals runFunction Number_toString fuel now app = Some app)
    /\ (expression <> [] -> showsError expression = false ->
        (forall m,
            evaluate runFunction fuel expression = Some (Message m) ->
            handleEquals runFunction Number_toString fuel now app
            = Some {| display := m; calculatorState := calculatorState app |})
        /\ (forall v,
               evaluate runFunction fuel expression = Some (Number v) ->
               handleEquals runFunction Number_toString fuel now app
               = Some {| display := Number_toString v;
                         calculatorState :=
                           addToHistory expression v now (calculatorState app) |})
        /\ (evaluate runFunction fuel expression = None ->
            handleEquals runFunction Number_toString fuel now app = None)).
Proof.
  intros fuel now app expression. unfold handleEquals. fold expression.
  split.
  - intros [-> | He]; [reflexivity|].
    rewrite He. destruct (JsString.eqb expression []); reflexivity.
  - intros Hne Herr. apply jsstring_eqb_neq in Hne. rewrite Hne, Herr.
    split; [|split].
    + intros m Hm. rewrite Hm. cbn [isErrorResult resultToString].
      rewrite (messages_start_with_Error m (evaluate_messages _ _ _ _ Hm)).
      reflexivity.
    + intros v Hv. rewrite Hv. reflexivity.
    + intros ->. reflexivity.
Qed.

Lemma addToHistory_length (e : jsstring) (r : float) (now : Z) (this : t) (n : nat) :
  (maxHistoryItems this <= n)%nat ->
  (List.length (history this) <= n)%nat ->
  (List.length (history (addToHistory e r now this)) <= n)%nat.
Proof.
  intros Hmax Hlen. unfold addToHistory. cbn [history].
  destruct (maxHistoryItems this <? _)%nat eqn:Hfull.
  - rewrite removelast_length. cbn [List.length pred]. exact Hlen.
  - apply Nat.ltb_ge in Hfull. apply (Nat.le_trans _ _ _ Hfull Hmax).
Qed.

Lemma recorded_step (fuel : nat) (loaded : list HistoryEntry)
  (app app' : App) (event : Event) :
  recorded runFunction fuel loaded app ->
  handle runFunction Number_toString fuel app event = Some app' ->
  recorded runFunction fuel loaded app'.
Proof.
  intros [Hmax [Hlen Hin]] Hstep.
  assert (Hkeep : calculatorState app' = calculatorState app ->
                  recorded runFunction fuel loaded app').
  { intros Hs. unfold recorded. rewrite Hs. auto. }
  destruct event as [v|v| | |now| |f|v|]; cbn [handle] in Hstep;
    try (injection Hstep as <-; apply Hkeep; reflexivity).
  - unfold handleEquals in Hstep.
    destruct (JsString.eqb (trim (display app)) []);
      [injection Hstep as <-; apply Hkeep; reflexivity|].
    destruct (showsError (trim (display app)));
      [injection Hstep as <-; apply Hkeep; reflexivity|].
    destruct (evaluate runFunction fuel (trim (display app))) as [[v|m]|] eqn:Hev;
      [| |discriminate].
    + cbn [isErrorResult] in Hstep. injection Hstep as <-.
      unfold recorded. cbn [calculatorState].
      split; [exact Hmax|]. split.
      * apply addToHistory_length; [|exact Hlen].
        rewrite Hmax. apply Nat.le_max_l.
      * intros entry. unfold addToHistory. cbn [history].
        intros Hentry.
        assert (Hcons : In entry
                  ({| expression := trim (display app); result := v;
                      timestamp := now |} :: history (calculatorState app))).
        { destruct (maxHistoryItems (calculatorState app) <? _)%nat;
            [apply In_removelast|]; exact Hentry. }
        destruct Hcons as [<- | Hold]; [right; exact Hev | apply Hin, Hold].
    + destruct (isErrorResult (Message m));
        injection Hstep as <-; apply Hkeep; reflexivity.
  - destruct (handlePercentage runFunction Number_toString fuel (display app));
      [|discriminate].
    injection Hstep as <-. apply Hkeep. reflexivity.
  - injection Hstep as <-. unfold recorded. cbn [calculatorState clearHistory history].
    split; [exact Hmax|]. split; [apply Nat.le_0_l | intros entry []].
Qed.

Lemma recorded_run (fuel : nat) (loaded : list HistoryEntry) (events : list Event) :
  forall app app',
    recorded runFunction fuel loaded app ->
    handleAll runFunction Number_toString fuel app events = Some app' ->
    recorded runFunction fuel loaded app'.
Proof.
  induction events as [|event events IH]; intros app app' Hrec Hrun.
  - injection Hrun as <-. exact Hrec.
  - cbn [handleAll] in Hrun.
    destruct (handle runFunction Number_toString fuel app event) as [app1|] eqn:Hstep;
      [|discriminate].
    apply (IH app1); [|exact Hrun].
    apply (recorded_step fuel loaded app app1 event); assumption.
Qed.

(** X18: the page starts with the history that [loadHistory] found, taken
    as it is.  Whatever the user does from there, when the handlers have
    all returned each entry of the history is one of the loaded entries or
    pairs an expression with the number [evaluate] returns for it: no error
    and no other number is ever recorded.  The history holds no more
    entries than ten or than were loaded, whichever is larger: at most ten
    when at most ten were loaded, as when nothing was stored or the stored
    text could not be parsed. *)
Theorem history_records_evaluations :
  forall fuel saved events app',
    handleAll runFunction Number_toString fuel (startOfPage saved) events
    = Some app' ->
    let loaded := history (calculatorState (startOfPage saved)) in
    (saved = NoItem \/ saved = Unparsable -> loaded = [])
    /\ (forall entries, saved = Parsed entries -> loaded = entries)
    /\ (List.length (history (calculatorState app'))
        <= Nat.max 10 (List.length loaded))%nat
    /\ ((List.length loaded <= 10)%nat ->
        (List.length (history (calculatorState app')) <= 10)%nat)
    /\ forall entry,
         In entry (history (calculatorState app')) ->
         In entry loaded
         \/ evaluate runFunction fuel (expression entry)
            = Some (Number (result entry)).
Proof.
  intros fuel saved events app' Hrun loaded.
  assert (Hinit : recorded runFunction fuel loaded (startOfPage saved)).
  { unfold recorded. fold loaded. split; [destruct saved; reflexivity|].
    split; [apply Nat.le_max_r | intros entry Hentry; left; exact Hentry]. }
  destruct (recorded_run fuel loaded events _ _ Hinit Hrun) as [_ [Hlen Hrec]].
  split; [intros [-> | ->]; reflexivity|].
  split; [intros entries ->; reflexivity|].
  split; [exact Hlen|]. split; [|exact Hrec].
  intros Hten. rewrite Nat.max_l in Hlen; assumption.
Qed.

End Equals.

Lemma equals_outcomes_witness :
  handleEquals Arith.engine (fun _ => str "4") 0 7
    {| display := str " 5/0 "; calculatorState := new |}
  = Some {| display := errDivisionByZero; calculatorState := new |}
  /\ handleEquals Arith.engine (fun _ => str "4") 0 7
       {| display := str "2+2"; calculatorState := new |}
     = Some {| display := str "4";
               calculatorState := addToHistory (str "2+2") 4 7 new |}
  /\ handleEquals Arith.engine (fun _ => str "4") 3 7
       {| display := str "2^"; calculatorState := new |}
     = None
  /\ handleEquals Arith.engine (fun _ => str "4") 0 7
       {| display := errDivisionByZero; calculatorState := new |}
     = Some {| display := errDivisionByZero; calculatorState := new |}.
Proof.
  destruct (equals_outcomes Arith.engine (fun _ => str "4") 0 7%Z
              {| display := str " 5/0 "; calculatorState := new |})
    as [_ Herr].
  destruct (equals_outcomes Arith.engine (fun _ => str "4") 0 7%Z
              {| display := str "2+2"; calculatorState := new |})
    as [_ Hnum].
  destruct (equals_outcomes Arith.engine (fun _ => str "4") 3 7%Z
              {| display := str "2^"; calculatorState := new |})
    as [_ Hspin].
  destruct (equals_outcomes Arith.engine (fun _ => str "4") 0 7%Z
              {| display := errDivisionByZero; calculatorState := new |})
    as [Hskip _].
  split; [|split; [|split]].
  - apply Herr; [discriminate | reflexivity | reflexivity].
  - apply (proj1 (proj2 (Hnum ltac:(discriminate) eq_refl)) 4%float).
    vm_compute. reflexivity.
  - apply (proj2 (proj2 (Hspin ltac:(discriminate) eq_refl))).
    vm_compute. reflexivity.
  - apply Hskip. right. reflexivity.
Defined.

Lemma history_records_evaluations_witness :
  match
    handleAll Arith.engine (fun _ => str "4") 0
      (startOfPage (Parsed twelveEntries))
      [NumberClick (str "2"); OperatorClick (str "+"); NumberClick (str "2");
       EqualsClick 7; OperatorClick (str "/"); NumberClick (str "0");
       EqualsClick 8; ClearClick]
  with
  | Some app' =>
      List.length (history (calculatorState app')) = 12%nat
      /\ (List.length (history (calculatorState app')) <= Nat.max 10 12)%nat
      /\ forall entry,
           In entry (history (calculatorState app')) ->
           In entry twelveEntries
           \/ evaluate Arith.engine 0 (expression entry)
              = Some (Number (result entry))
  | None => False
  end.
Proof.
  destruct (handleAll Arith.engine (fun _ => str "4") 0
              (startOfPage (Parsed twelveEntries))
              [NumberClick (str "2"); OperatorClick (str "+");
               NumberClick (str "2"); EqualsClick 7; OperatorClick (str "/");
               NumberClick (str "0"); EqualsClick 8; ClearClick])
    as [app'|] eqn:Hrun.
  - destruct (history_records_evaluations Arith.engine (fun _ => str "4") 0
                (Parsed twelveEntries) _ app' Hrun)
      as [_ [_ [Hlen [_ Hrec]]]].
    split; [|split; [exact Hlen | exact Hrec]].
    vm_compute in Hrun. injection Hrun as <-. reflexivity.
  - vm_compute in Hrun. discriminate Hrun.
Defined.

(** ** The scientific buttons read the leading number *)

Lemma isDigit_bounds (c : N) : isDigit c = true -> (48 <= c <= 57)%N.
Proof.
  unfold isDigit. intros H. apply andb_true_iff in H. destruct H as [H1 H2].
  apply N.leb_le in H1, H2. lia.
Qed.

Lemma digit_is_not (c k : N) :
  isDigit c = true -> (k < 48 \/ 57 < k)%N -> (c =? k)%N = false.
Proof.
  intros Hc Hk. apply isDigit_bounds in Hc. apply N.eqb_neq. lia.
Qed.

Lemma isDigit_not_whiteSpace (c : N) :
  isDigit c = true -> isWhiteSpace c = false.
Proof.
  intros Hc. pose proof (isDigit_bounds c Hc) as Hb.
  unfold isWhiteSpace. cbn [existsb].
  rewrite !(N.eqb_sym c).
  rewrite !(fun k Hk => eq_trans (N.eqb_sym k c) (digit_is_not c k Hc Hk)) by lia.
  cbn [orb]. apply andb_false_iff. left. apply N.leb_gt. lia.
Qed.

Lemma operator_cases (c : N) :
  isOperatorChar c = true ->
  c = ch "+" \/ c = ch "-" \/ c = ch "*" \/ c = ch "/".
Proof.
  unfold isOperatorChar. cbn [existsb]. rewrite orb_false_r.
  rewrite !orb_true_iff, !N.eqb_eq. intros [H|[H|[H|H]]]; subst; auto.
Qed.

Lemma keypad_not_whiteSpace (c : N) :
  isKeypadChar c = true -> isWhiteSpace c = false.
Proof.
  unfold isKeypadChar. intros H. apply orb_true_iff in H.
  destruct H as [H|H]; [apply isDigit_not_whiteSpace, H|].
  cbn [existsb] in H. rewrite orb_false_r, !orb_true_iff, !N.eqb_eq in H.
  repeat (destruct H as [H|H]; [subst c; reflexivity|]).
  subst c. reflexivity.
Qed.

Lemma trimStart_id (s : jsstring) :
  (forall c, In c s -> isWhiteSpace c = false) -> trimStart s = s.
Proof.
  destruct s as [|c t]; [reflexivity|]. intros H.
  cbn [trimStart]. rewrite (H c (or_introl eq_refl)). reflexivity.
Qed.

(** [trim] leaves a text without white space as it is. *)
Lemma trim_id (s : jsstring) :
  (forall c, In c s -> isWhiteSpace c = false) -> trim s = s.
Proof.
  intros H. unfold trim. rewrite (trimStart_id s H).
  rewrite trimStart_id; [apply rev_involutive|].
  intros c Hc. apply H. apply in_rev. exact Hc.
Qed.

Lemma spanDigits_prefix (ds : jsstring) (c : N) (rest : jsstring) :
  forallb isDigit ds = true -> isDigit c = false ->
  spanDigits (ds ++ c :: rest) = (ds, c :: rest).
Proof.
  intros Hds Hc. induction ds as [|d ds IH].
  - cbn [app spanDigits]. rewrite Hc. reflexivity.
  - cbn [forallb] in Hds. apply andb_true_iff in Hds. destruct Hds as [Hd Hds].
    cbn [app spanDigits]. rewrite Hd, (IH Hds). reflexivity.
Qed.

(** [parseFloat] reads the digits at the head of a text and stops at the
    first operator: what follows is ignored. *)
Lemma parseFloat_leading_digits (ds : jsstring) (op : N) (rest : jsstring) :
  ds <> [] -> forallb isDigit ds = true -> isOperatorChar op = true ->
  Global.parseFloat (ds ++ op :: rest) = Global.scaled (Arith.digitsValue ds) 0.
Proof.
  intros Hne Hds Hop.
  assert (Hopd : isDigit op = false /\ (op =? ch ".")%N = false
                 /\ (op =? ch "e")%N = false /\ (op =? ch "E")%N = false).
  { destruct (operator_cases op Hop) as [->|[->|[->| ->]]]; repeat split. }
  destruct Hopd as [Hopd [Hdot [He HE]]].
  destruct ds as [|d ds]; [contradiction Hne; reflexivity|].
  pose proof Hds as Hd. cbn [forallb] in Hd. apply andb_true_iff in Hd.
  destruct Hd as [Hd _].
  assert (Hmin : (d =? ch "-")%N = false)
    by (apply digit_is_not; [exact Hd | left; reflexivity]).
  assert (Hplus : (d =? ch "+")%N = false)
    by (apply digit_is_not; [exact Hd | left; reflexivity]).
  assert (HI : (ch "I" =? d)%N = false)
    by (rewrite N.eqb_sym; apply digit_is_not; [exact Hd | right; reflexivity]).
  unfold Global.parseFloat.
  change ((d :: ds) ++ op :: rest) with (d :: ds ++ op :: rest).
  cbn [trimStart]. rewrite (isDigit_not_whiteSpace d Hd), Hmin, Hplus.
  unfold Global.unsignedPrefix.
  change (str "Infinity") with (ch "I" :: str "nfinity").
  cbn [startsWith]. rewrite HI. cbn [andb].
  change (d :: ds ++ op :: rest) with ((d :: ds) ++ op :: rest).
  rewrite (spanDigits_prefix (d :: ds) op rest Hds Hopd), Hdot.
  rewrite app_nil_r.
  unfold Global.exponentPart. rewrite He, HE. reflexivity.
Qed.

Lemma digits_are_keypad (s : jsstring) :
  forallb isDigit s = true -> forallb isKeypadChar s = true.
Proof.
  rewrite !forallb_forall. intros H c Hc. unfold isKeypadChar.
  rewrite (H c Hc). reflexivity.
Qed.

(** X19: on a display that starts with digits followed by an operator, the
    square and square-root buttons work on the number those digits denote
    and not on the value of the expression: everything from the operator on
    is ignored and replaced. *)
Theorem scientific_buttons_read_the_leading_number :
  forall Number_toString ds op rest,
    ds <> [] ->
    forallb isDigit ds = true ->
    isOperatorChar op = true ->
    forallb isKeypadChar rest = true ->
    let value := Global.scaled (Arith.digitsValue ds) 0 in
    handleScientific Number_toString (str "square") (ds ++ op :: rest)
    = Number_toString (value * value)%float
    /\ handleScientific Number_toString (str "sqrt") (ds ++ op :: rest)
       = resultToString Number_toString (sqrt value).
Proof.
  intros Number_toString ds op rest Hne Hds Hop Hrest value.
  assert (Hkey : forallb isKeypadChar (ds ++ op :: rest) = true).
  { rewrite forallb_app, (digits_are_keypad ds Hds). cbn [forallb andb].
    rewrite Hrest, andb_true_r.
    destruct (operator_cases op Hop) as [->|[->|[->| ->]]]; reflexivity. }
  assert (Htrim : trim (ds ++ op :: rest) = ds ++ op :: rest).
  { apply trim_id. rewrite forallb_forall in Hkey.
    intros c Hc. apply keypad_not_whiteSpace, Hkey, Hc. }
  assert (Hnil : JsString.eqb (ds ++ op :: rest) [] = false)
    by (destruct ds; [contradiction Hne; reflexivity | reflexivity]).
  unfold handleScientific.
  rewrite Htrim, Hnil, (keypad_not_error _ Hkey).
  rewrite (parseFloat_leading_digits ds op rest Hne Hds Hop).
  split; reflexivity.
Qed.

Lemma scientific_buttons_read_the_leading_number_witness :
  handleScientific (fun _ => str "144") (str "square") (str "12+5*(3")
  = (fun _ : float => str "144") (12 * 12)%float
  /\ handleScientific (fun _ => str "3") (str "sqrt") (str "9+16")
     = resultToString (fun _ => str "3") (sqrt 9).
Proof.
  split.
  - apply (scientific_buttons_read_the_leading_number (fun _ => str "144")
             (str "12") (ch "+") (str "5*(3")); [discriminate | reflexivity ..].
  - apply (scientific_buttons_read_the_leading_number (fun _ => str "3")
             (str "9") (ch "+") (str "16")); [discriminate | reflexivity ..].
Defined.

(** ** The number returned is never NaN *)

Lemma SFcompare_refl (x : spec_float) :
  x <> S754_nan -> SFcompare x x = Some Eq.
Proof.
  destruct x as [s|s| |s m e]; intros H; try reflexivity.
  - destruct s; reflexivity.
  - contradiction H. reflexivity.
  - cbn [SFcompare]. rewrite Z.compare_refl.
    change (Pos.compare_cont Eq m m) with (Pos.compare m m).
    rewrite Pos.compare_refl. destruct s; reflexivity.
Qed.

Lemma is_nan_spec (x : float) :
  PrimFloat.is_nan x = false <-> Prim2SF x <> S754_nan.
Proof.
  unfold PrimFloat.is_nan. rewrite FloatAxioms.eqb_spec. unfold SFeqb. split.
  - intros H Hnan. rewrite Hnan in H. discriminate H.
  - intros H. rewrite (SFcompare_refl _ H). reflexivity.
Qed.

Lemma is_finite_spec (x : float) :
  PrimFloat.is_finite x = true ->
  (exists s, Prim2SF x = S754_zero s) \/ (exists s m e, Prim2SF x = S754_finite s m e).
Proof.
  unfold PrimFloat.is_finite. intros H. apply negb_true_iff, orb_false_iff in H.
  destruct H as [Hnan Hinf]. apply is_nan_spec in Hnan.
  unfold PrimFloat.is_infinity in Hinf.
  rewrite FloatAxioms.eqb_spec, abs_spec in Hinf.
  change (Prim2SF infinity) with (S754_infinity false) in Hinf.
  destruct (Prim2SF x) as [s|s| |s m e].
  - left. exists s. reflexivity.
  - discriminate Hinf.
  - contradiction Hnan. reflexivity.
  - right. exists s, m, e. reflexivity.
Qed.

(** ** The square root of every number *)

(** A number is below zero, or not below zero, or it is NaN, which is
    neither. *)
Lemma below_zero_or_not_or_NaN (x : float) :
  (x <? 0)%float = true \/ (0 <=? x)%float = true \/ PrimFloat.is_nan x = true.
Proof.
  destruct (PrimFloat.is_nan x) eqn:Hnan; [right; right; reflexivity|].
  apply is_nan_spec in Hnan.
  rewrite ltb_spec, leb_spec.
  change (Prim2SF 0) with (S754_zero false).
  unfold SFltb, SFleb.
  destruct (Prim2SF x) as [s|s| |s m e].
  - right; left. reflexivity.
  - destruct s; [left | right; left]; reflexivity.
  - contradiction Hnan. reflexivity.
  - destruct s; [left | right; left]; reflexivity.
Qed.

Lemma is_nan_eq (x : float) : PrimFloat.is_nan x = true -> x = nan.
Proof.
  intros H. apply Prim2SF_inj. change (Prim2SF nan) with S754_nan.
  destruct (Prim2SF x) as [s|s| |s m e] eqn:Hx; try reflexivity;
    assert (Hn : PrimFloat.is_nan x = false)
      by (apply is_nan_spec; rewrite Hx; discriminate);
    rewrite Hn in H; discriminate H.
Qed.

(** C8, as stated, fails on NaN: it is not below zero, no error is returned
    for it, and what [sqrt] returns is NaN, which is not a number that is
    not negative and whose square is not its argument.  The root button
    reaches it on the display [-], where [parseFloat] gives NaN. *)
Lemma sqrt_of_NaN_is_NaN :
  (nan <? 0)%float = false
  /\ sqrt nan = Number nan
  /\ ~ (exists r, sqrt nan = Number r /\ (0 <=? r)%float = true)
  /\ ~ (exists r, sqrt nan = Number r /\ (r * r =? nan)%float = true)
  /\ Global.parseFloat (str "-") = nan
  /\ handleScientific
       (fun x => if PrimFloat.is_nan x then str "NaN" else str "a number")
       (str "sqrt") (str "-")
     = str "NaN".
Proof.
  split; [reflexivity|]. split; [vm_compute; reflexivity|].
  split; [|split; [|split]].
  - intros [r [Hr Hle]]. vm_compute in Hr. injection Hr as <-.
    vm_compute in Hle. discriminate Hle.
  - intros [r [Hr Hsq]]. vm_compute in Hr. injection Hr as <-.
    vm_compute in Hsq. discriminate Hsq.
  - vm_compute. reflexivity.
  - vm_compute. reflexivity.
Qed.

(** C8, amended: every number is below zero, or not below zero, or NaN.
    Below zero [sqrt] returns the negative-square-root error; on a number
    that is not below zero it returns the IEEE 754 square root, which is
    not below zero either; on NaN it returns NaN.  [sqrt(-1)] is the error
    and [sqrt(4)] is 2. *)
Theorem sqrt_of_every_number :
  forall x,
    ((x <? 0)%float = true \/ (0 <=? x)%float = true
     \/ PrimFloat.is_nan x = true)
    /\ ((x <? 0)%float = true -> sqrt x = Message errNegativeSqrt)
    /\ ((0 <=? x)%float = true ->
        exists r, sqrt x = Number r
                  /\ (0 <=? r)%float = true
                  /\ PrimFloat.is_nan r = false
                  /\ Prim2SF r = SF64sqrt (Prim2SF x))
    /\ (PrimFloat.is_nan x = true -> sqrt x = Number nan)
    /\ sqrt (-1) = Message errNegativeSqrt
    /\ sqrt 4 = Number 2.
Proof.
  intros x. split; [apply below_zero_or_not_or_NaN|].
  unfold sqrt. split; [|split; [|split; [|split]]].
  - intros ->. reflexivity.
  - intros H. rewrite (not_negative x H).
    exists (PrimFloat.sqrt x). pose proof (sqrt_nonneg x H) as Hroot.
    split; [reflexivity|]. split; [exact Hroot|]. split; [|apply sqrt_spec].
    destruct (PrimFloat.is_nan (PrimFloat.sqrt x)) eqn:Hnan; [|reflexivity].
    apply is_nan_eq in Hnan. unfold Math.sqrt in Hnan. rewrite Hnan in Hroot.
    vm_compute in Hroot. discriminate Hroot.
  - intros H. apply is_nan_eq in H. subst x. vm_compute. reflexivity.
  - reflexivity.
  - vm_compute. reflexivity.
Qed.

Lemma sqrt_of_every_number_witness :
  sqrt (-1) = Message errNegativeSqrt
  /\ (exists r, sqrt 9 = Number r
                /\ (0 <=? r)%float = true
                /\ PrimFloat.is_nan r = false
                /\ Prim2SF r = SF64sqrt (Prim2SF 9))
  /\ sqrt nan = Number nan.
Proof.
  destruct (sqrt_of_every_number (-1)%float) as [_ [Hneg _]].
  destruct (sqrt_of_every_number 9%float) as [_ [_ [Hpos _]]].
  destruct (sqrt_of_every_number nan) as [_ [_ [_ [Hnan _]]]].
  split; [|split].
  - apply Hneg. reflexivity.
  - apply Hpos. reflexivity.
  - apply Hnan. reflexivity.
Defined.

Lemma binary_round_aux_not_nan (s : bool) (m e : Z) (l : location) :
  (0 <= m)%Z -> binary_round_aux prec emax s m e l <> S754_nan.
Proof.
  intros H. unfold binary_round_aux.
  pose proof (shr_fexp_nonneg m e l H) as H1.
  destruct (shr_fexp prec emax m e l) as [mrs' e'].
  cbn [fst] in H1.
  pose proof (shr_fexp_nonneg _ e' loc_Exact
                (round_nearest_even_nonneg _ (loc_of_shr_record mrs') H1)) as H2.
  destruct (shr_fexp prec emax
              (round_nearest_even (shr_m mrs') (loc_of_shr_record mrs')) e' loc_Exact)
    as [mrs'' e''].
  cbn [fst] in H2. unfold nonnegRecord in H2.
  destruct (shr_m mrs'') as [|p|p]; [discriminate| |lia].
  destruct (e'' <=? emax - prec)%Z; discriminate.
Qed.

Lemma SFmul_not_nan (x : spec_float) (m : positive) (e : Z) :
  x <> S754_nan ->
  (forall s, x <> S754_infinity s) ->
  SFmul prec emax x (S754_finite false m e) <> S754_nan.
Proof.
  intros Hnan Hinf. destruct x as [s|s| |s mx ex]; cbn [SFmul].
  - discriminate.
  - contradiction (Hinf s). reflexivity.
  - contradiction Hnan. reflexivity.
  - apply binary_round_aux_not_nan. lia.
Qed.

Lemma SFdiv_not_nan (x : spec_float) (m : positive) (e : Z) :
  x <> S754_nan ->
  SFdiv prec emax x (S754_finite false m e) <> S754_nan.
Proof.
  intros Hnan. destruct x as [s|s| |s mx ex]; cbn [SFdiv].
  - discriminate.
  - discriminate.
  - contradiction Hnan. reflexivity.
  - unfold SFdiv_core_binary.
    destruct (Z.div_eucl _ (Z.pos m)) as [q r] eqn:Hqr.
    apply binary_round_aux_not_nan.
    match type of Hqr with
    | Z.div_eucl ?a ?b = _ =>
        assert (Hq : q = (a / b)%Z) by (unfold Z.div; rewrite Hqr; reflexivity);
        assert (Ha : (0 <= a)%Z)
    end.
    { match goal with
      | |- (0 <= match ?s with _ => _ end)%Z => destruct s eqn:Hs
      end; try lia.
      apply Z.shiftl_nonneg. lia. }
    rewrite Hq. apply Z.div_pos; lia.
Qed.

Lemma ofZ_not_nan (n : Z) : Prim2SF (Math.ofZ n) <> S754_nan.
Proof.
  assert (H : forall k, Prim2SF (of_uint63 k) <> S754_nan).
  { intros k. rewrite of_uint63_spec. unfold binary_normalize, binary_round.
    destruct (Uint63Axioms.to_Z k) as [|p|p]; [discriminate| |].
    - destruct (shl_align p 0 (fexp prec emax (Z.pos (digits2_pos p) + 0))).
      apply binary_round_aux_not_nan. lia.
    - destruct (shl_align p 0 (fexp prec emax (Z.pos (digits2_pos p) + 0))).
      apply binary_round_aux_not_nan. lia. }
  destruct n as [|p|p]; cbn [Math.ofZ].
  - vm_compute. discriminate.
  - apply H.
  - rewrite opp_spec. specialize (H (Uint63.of_Z (Z.pos p))).
    destruct (Prim2SF (of_uint63 (Uint63.of_Z (Z.pos p)))); try discriminate.
    contradiction H. reflexivity.
Qed.

Lemma round_not_nan (x : float) :
  Prim2SF x <> S754_nan -> Prim2SF (Math.round x) <> S754_nan.
Proof.
  intros H. unfold Math.round.
  destruct (Prim2SF x) as [s|s| |s m e] eqn:Hx; try (rewrite Hx; exact H).
  destruct (0 <=? e)%Z; [rewrite Hx; exact H|].
  cbv zeta.
  destruct (_ =? 0)%Z; [destruct s; vm_compute; discriminate|].
  apply ofZ_not_nan.
Qed.

Lemma evaluate_number_inversion runFunction (fuel : nat) (input : jsstring)
  (v : float) :
  evaluate runFunction fuel input = Some (Number v) ->
  exists r, PrimFloat.is_finite r = true
            /\ v = (Math.round (r * 100000000) / 100000000)%float.
Proof.
  unfold evaluate.
  destruct (sanitize fuel input) as [e|w|] eqn:Hs; [| |discriminate].
  - unfold execute.
    destruct (divisionByZeroTest e); [discriminate|].
    destruct (runFunction (functionBody e)) as [result|]; [|discriminate].
    destruct (toNumber result) as [r|]; [|discriminate].
    destruct (PrimFloat.is_finite r) eqn:Hfin; [|discriminate].
    cbn [negb]. intros H. injection H as <-. exists r. split; [exact Hfin | reflexivity].
  - intros H. injection H as ->. exfalso.
    rewrite sanitize_unfold in Hs.
    destruct (isEmptyInput input); [discriminate|].
    destruct (powerLoop fuel (normalize input) false) as [[e hasPower]|w|] eqn:Hloop;
      [| |discriminate].
    + destruct (negb hasPower && negb (originalPattern (removeWhiteSpace e)));
        [discriminate|].
      destruct (hasPower && negb (withMathPow e)); [discriminate|].
      destruct (parenLoop 0 e) as [parenCount|]; [|discriminate].
      destruct (negb (parenCount =? 0)%Z); discriminate.
    + apply powerLoop_stop in Hloop. subst w. discriminate.
Qed.

(** X7: A number returned by [evaluate] is never NaN, whatever the engine
    returns: the finiteness test of l.74 leaves only finite raw values, and
    neither the multiplication by 10^8, nor [Math.round], nor the division
    by 10^8 makes a NaN of a number that is not one. (It can be an
    infinity.) The same holds of the number [percentage] returns. *)
Theorem evaluate_never_returns_NaN :
  forall runFunction fuel input v,
    (evaluate runFunction fuel input = Some (Number v) ->
     PrimFloat.is_nan v = false)
    /\ (percentage runFunction fuel input = Some (Number v) ->
        PrimFloat.is_nan v = false).
Proof.
  assert (Hconst : forall c, c = 100000000%float \/ c = 100%float ->
                     exists m e, Prim2SF c = S754_finite false m e).
  { intros c [-> | ->]; vm_compute; eauto. }
  assert (Hev : forall runFunction fuel input v,
             evaluate runFunction fuel input = Some (Number v) ->
             Prim2SF v <> S754_nan).
  { intros runFunction fuel input v H.
    destruct (evaluate_number_inversion _ _ _ _ H) as [r [Hfin ->]].
    destruct (Hconst 100000000%float (or_introl eq_refl)) as [m [e Hc]].
    rewrite div_spec, Hc. apply SFdiv_not_nan.
    apply round_not_nan. rewrite mul_spec, Hc.
    destruct (is_finite_spec r Hfin) as [[s Hr] | [s [mr [er Hr]]]]; rewrite Hr;
      apply SFmul_not_nan; discriminate. }
  intros runFunction fuel input v. split.
  - intros H. apply is_nan_spec. apply (Hev _ _ _ _ H).
  - unfold percentage.
    destruct (evaluate runFunction fuel input) as [[w|m]|] eqn:Hw; try discriminate.
    intros H. injection H as <-. apply is_nan_spec.
    destruct (Hconst 100%float (or_intror eq_refl)) as [m [e Hc]].
    rewrite div_spec, Hc. apply SFdiv_not_nan. apply (Hev _ _ _ _ Hw).
Qed.

Lemma evaluate_never_returns_NaN_witness :
  PrimFloat.is_nan 10 = false /\ PrimFloat.is_nan (10 / 100) = false.
Proof.
  destruct (evaluate_never_returns_NaN Arith.engine 0 (str "5/0.5") 10%float)
    as [Hev _].
  destruct (evaluate_never_returns_NaN Arith.engine 0 (str "5/0.5") (10 / 100)%float)
    as [_ Hpc].
  split; [apply Hev | apply Hpc]; vm_compute; reflexivity.
Defined.

Lemma empty_expression_iff_witness :
  evaluate Arith.engine 0 [0x20; 0x09; 0xA0]%N = Some (Message errEmptyExpression).
Proof.
  apply (empty_expression_iff Arith.engine 0). reflexivity.
Defined.

(** ** White space is ignored everywhere *)

Lemma removeWhiteSpace_idempotent (s : jsstring) :
  removeWhiteSpace (removeWhiteSpace s) = removeWhiteSpace s.
Proof.
  unfold removeWhiteSpace. apply filter_all, forallb_filter.
Qed.

Lemma removeWhiteSpace_blank (s : jsstring) :
  forallb isWhiteSpace (removeWhiteSpace s) = forallb isWhiteSpace s.
Proof.
  unfold removeWhiteSpace. induction s as [|c t IH]; [reflexivity|].
  cbn [filter forallb]. destruct (isWhiteSpace c) eqn:Hc; cbn [negb andb].
  - exact IH.
  - cbn [forallb]. rewrite Hc. reflexivity.
Qed.

(** X6: white space has no meaning anywhere in the input, not even inside a
    number: [evaluate] gives the same answer, or hangs alike, on an input
    and on that input with all its white space removed. *)
Theorem white_space_is_ignored :
  forall runFunction fuel input,
    evaluate runFunction fuel (removeWhiteSpace input)
    = evaluate runFunction fuel input.
Proof.
  intros runFunction fuel input. unfold evaluate. rewrite !sanitize_unfold.
  unfold normalize. rewrite removeWhiteSpace_idempotent.
  replace (isEmptyInput (removeWhiteSpace input)) with (isEmptyInput input);
    [reflexivity|].
  pose proof (isEmptyInput_spec input) as H1.
  pose proof (isEmptyInput_spec (removeWhiteSpace input)) as H2.
  rewrite removeWhiteSpace_blank in H2.
  destruct (isEmptyInput input), (isEmptyInput (removeWhiteSpace input));
    try reflexivity.
  - symmetry. apply H2, H1. reflexivity.
  - apply H1, H2. reflexivity.
Qed.
